(** * pkg/remoteclusters/cluster.go: the remote cluster lifecycle manager

    A shallow embedding of [Cluster] and its methods.  Go pointers that may be
    nil are [option]s, the error interface is [option error], the stop channel
    lives in a channel store, and every call that leaves the file (the
    controller-runtime manager, the clients, the reconcilers of the other
    files of the package) is answered by an environment that sees the whole
    history of the run.  A nil dereference and a second [close] are panics. *)

From Stdlib Require Import Strings.Byte.
From stdpp Require Import base strings list.


(** ** Values handed in by the callers *)

Module istiov1beta1.
(** The two custom resources; only the object meta is read in this file. *)
Record RemoteIstio := { Name : string; Namespace : string }.
Record Istio := { IstioName : string; IstioNamespace : string }.
End istiov1beta1.

Module types.
Record NamespacedName := { Name : string; Namespace : string }.
End types.

Module reconcile.
Record Request := { NamespacedName : types.NamespacedName }.
End reconcile.

(** Handles of the objects built by the libraries. *)
Definition Chan := nat.
Definition RestConfig := nat.
Definition ApiConfig := nat.
Definition Manager := nat.
Definition Informer := nat.
Definition Controller := nat.
Definition DynamicClient := nat.

(** [mgr.GetClient()] is an accessor of the manager. *)
Inductive Client := ClientOf (m : Manager).

(** ** Errors *)

Inductive StatusReason :=
| StatusReasonNotFound
| StatusReasonForbidden
| StatusReasonAlreadyExists
| StatusReasonTimeout
| StatusReasonUnknown.

(** What a collaborator reports: an API status, or anything else. *)
Inductive ext_error :=
| APIStatus (reason : StatusReason)
| Other (msg : string).

(** [ErrorsNew] is [errors.New] executed by this file, [Wrapped] is
    [emperror.Wrap]/[Wrapf] executed by this file. *)
Inductive error :=
| ErrorsNew (msg : string)
| External (e : ext_error)
| Wrapped (msg : string) (cause : error).

Module emperror.
(** A nil error stays nil. *)
Definition Wrap (err : option error) (msg : string) : option error :=
  match err with
  | None => None
  | Some e => Some (Wrapped msg e)
  end.
Definition Wrapf := Wrap.
End emperror.

Module k8serrors.
(** The reason is read off the error itself, as the delete calls return it. *)
Definition IsNotFound (err : option error) : bool :=
  match err with
  | Some (External (APIStatus StatusReasonNotFound)) => true
  | _ => false
  end.
End k8serrors.

Fixpoint root_cause (e : error) : error :=
  match e with
  | Wrapped _ c => root_cause c
  | _ => e
  end.

(** ** The Cluster *)

Module sync.
Record Once := { done_ : bool }.
End sync.

Record Cluster := {
  name : string;
  config : list byte;
  stop : Chan;
  stopper : Chan;
  initClient : sync.Once;
  initInformers : sync.Once;
  mgr : option Manager;
  restConfig : option RestConfig;
  ctrlRuntimeClient : option Client;
  dynamicClient : option DynamicClient;
  istioConfig : option istiov1beta1.Istio;
  remoteConfig : option istiov1beta1.RemoteIstio;
  ctrl : option Controller
}.

Inductive Res (A : Type) :=
| Ret (a : A)
| Panic (msg : string).
Arguments Ret {A} a.
Arguments Panic {A} msg.

(** ** The watch: event filter and event mapper *)

Record MapObject := { ObjName : string; ObjNamespace : string }.

Inductive WatchEvent :=
| CreateEvent (o : MapObject)
| UpdateEvent (old new : MapObject)
| DeleteEvent (o : MapObject)
| GenericEvent (o : MapObject).

Module predicate.
Record Funcs := {
  CreateFunc : MapObject -> bool;
  DeleteFunc : MapObject -> bool;
  GenericFunc : MapObject -> bool;
  UpdateFunc : MapObject -> MapObject -> bool
}.
Definition accepts (p : Funcs) (e : WatchEvent) : bool :=
  match e with
  | CreateEvent o => CreateFunc p o
  | UpdateEvent o n => UpdateFunc p o n
  | DeleteEvent o => DeleteFunc p o
  | GenericEvent o => GenericFunc p o
  end.
End predicate.

Module handler.
(** The mapper is a closure over the pointer [c]: it reads the Cluster as it
    is when the event is delivered. *)
Record EnqueueRequestsFromMapFunc := {
  ToRequests : Cluster -> MapObject -> Res (list reconcile.Request)
}.
End handler.

(** ** Calls that leave the file *)

Inductive ReconcilerFunc :=
| reconcileConfig
| reconcileSignCert
| reconcileCARootToNamespaces
| reconcileEnabledServices
| ReconcileEnabledServiceEndpoints
| reconcileComponents.

(** Modelled from the spec: [c.istiocrd()] and [c.meshgatewaycrd()] are
    defined in another file of the package; they build the two top-level
    installed resources, the mesh control plane and its gateway component. *)
Inductive Object :=
| istiocrd
| meshgatewaycrd.

Inductive Call :=
| clientcmd_Load (kubeconfig : list byte)
| clientcmd_ClientConfig (clusterConfig : ApiConfig)
| manager_New (cfg : option RestConfig) (MetricsBindAddress : string)
| cache_WaitForCacheSync (m : Manager) (stopCh : Chan)
| meshgateway_Add (m : Manager)
| dynamic_NewForConfig (cfg : option RestConfig)
| cache_GetInformerForKind (m : Manager) (kind : string)
| controller_Watch (ctl : Controller) (inf : Informer)
    (h : handler.EnqueueRequestsFromMapFunc) (p : predicate.Funcs)
| client_Delete (cl : Client) (obj : Object)
| cluster_reconcileCRDs (remote : option istiov1beta1.RemoteIstio)
    (istio : option istiov1beta1.Istio)
| cluster_step (f : ReconcilerFunc) (remote : option istiov1beta1.RemoteIstio)
    (istio : option istiov1beta1.Istio).

(** Modelled from the spec: the reconcilers are methods of [Cluster] defined
    in other files of the package.  [istioConfig] is the one field this file
    never assigns, so a reconciler may record there the mesh resource it
    installed ([r_installed]); they leave the other fields alone. *)
Record Reply := {
  r_err : option ext_error;
  r_handle : nat;
  r_installed : option istiov1beta1.Istio
}.

Definition ok : Reply := {| r_err := None; r_handle := 0; r_installed := None |}.
Definition built (h : nat) : Reply :=
  {| r_err := None; r_handle := h; r_installed := None |}.
Definition failed (e : ext_error) : Reply :=
  {| r_err := Some e; r_handle := 0; r_installed := None |}.
Definition installed (i : istiov1beta1.Istio) : Reply :=
  {| r_err := None; r_handle := 0; r_installed := Some i |}.

Inductive Event :=
| Logged (msg : string)
| Called (c : Call) (r : Reply)
| Go_Start (m : Manager) (stopCh : Chan)
| Closed (ch : Chan).

(** The history is kept newest first. *)
Definition Env := list Event -> Call -> Reply.

Definition error_of (r : Reply) : option error :=
  match r_err r with
  | None => None
  | Some e => Some (External e)
  end.

(** ** State and the monad of the methods *)

(** [chans !! ch] is [Some true] for a closed channel, [Some false] for an
    open one and [None] for a channel that was never made (nil). *)
Record St := {
  self : Cluster;
  chans : list bool;
  trace : list Event
}.

Definition M (A : Type) := St -> Res A * St.

#[global] Instance M_ret : MRet M := fun A a s => (Ret a, s).
#[global] Instance M_bind : MBind M := fun A B f m s =>
  match m s with
  | (Ret a, s') => f a s'
  | (Panic msg, s') => (Panic msg, s')
  end.

Definition panic {A} (msg : string) : M A := fun s => (Panic msg, s).
Definition get_self : M Cluster := fun s => (Ret (self s), s).
Definition modify_self (f : Cluster -> Cluster) : M unit := fun s =>
  (Ret tt, {| self := f (self s); chans := chans s; trace := trace s |}).
Definition emit (e : Event) : M unit := fun s =>
  (Ret tt, {| self := self s; chans := chans s; trace := e :: trace s |}).

Definition nil_dereference : string :=
  "invalid memory address or nil pointer dereference".

(** Field assignments [c.f = v]. *)
Definition set_mgr v (c : Cluster) : Cluster :=
  {| name := name c; config := config c; stop := stop c; stopper := stopper c;
     initClient := initClient c; initInformers := initInformers c;
     mgr := v; restConfig := restConfig c;
     ctrlRuntimeClient := ctrlRuntimeClient c; dynamicClient := dynamicClient c;
     istioConfig := istioConfig c; remoteConfig := remoteConfig c;
     ctrl := ctrl c |}.
Definition set_restConfig v (c : Cluster) : Cluster :=
  {| name := name c; config := config c; stop := stop c; stopper := stopper c;
     initClient := initClient c; initInformers := initInformers c;
     mgr := mgr c; restConfig := v;
     ctrlRuntimeClient := ctrlRuntimeClient c; dynamicClient := dynamicClient c;
     istioConfig := istioConfig c; remoteConfig := remoteConfig c;
     ctrl := ctrl c |}.
Definition set_ctrlRuntimeClient v (c : Cluster) : Cluster :=
  {| name := name c; config := config c; stop := stop c; stopper := stopper c;
     initClient := initClient c; initInformers := initInformers c;
     mgr := mgr c; restConfig := restConfig c;
     ctrlRuntimeClient := v; dynamicClient := dynamicClient c;
     istioConfig := istioConfig c; remoteConfig := remoteConfig c;
     ctrl := ctrl c |}.
Definition set_dynamicClient v (c : Cluster) : Cluster :=
  {| name := name c; config := config c; stop := stop c; stopper := stopper c;
     initClient := initClient c; initInformers := initInformers c;
     mgr := mgr c; restConfig := restConfig c;
     ctrlRuntimeClient := ctrlRuntimeClient c; dynamicClient := v;
     istioConfig := istioConfig c; remoteConfig := remoteConfig c;
     ctrl := ctrl c |}.
Definition set_istioConfig v (c : Cluster) : Cluster :=
  {| name := name c; config := config c; stop := stop c; stopper := stopper c;
     initClient := initClient c; initInformers := initInformers c;
     mgr := mgr c; restConfig := restConfig c;
     ctrlRuntimeClient := ctrlRuntimeClient c; dynamicClient := dynamicClient c;
     istioConfig := v; remoteConfig := remoteConfig c;
     ctrl := ctrl c |}.
Definition set_remoteConfig v (c : Cluster) : Cluster :=
  {| name := name c; config := config c; stop := stop c; stopper := stopper c;
     initClient := initClient c; initInformers := initInformers c;
     mgr := mgr c; restConfig := restConfig c;
     ctrlRuntimeClient := ctrlRuntimeClient c; dynamicClient := dynamicClient c;
     istioConfig := istioConfig c; remoteConfig := v;
     ctrl := ctrl c |}.
Definition set_initClient v (c : Cluster) : Cluster :=
  {| name := name c; config := config c; stop := stop c; stopper := stopper c;
     initClient := v; initInformers := initInformers c;
     mgr := mgr c; restConfig := restConfig c;
     ctrlRuntimeClient := ctrlRuntimeClient c; dynamicClient := dynamicClient c;
     istioConfig := istioConfig c; remoteConfig := remoteConfig c;
     ctrl := ctrl c |}.
Definition set_initInformers v (c : Cluster) : Cluster :=
  {| name := name c; config := config c; stop := stop c; stopper := stopper c;
     initClient := initClient c; initInformers := v;
     mgr := mgr c; restConfig := restConfig c;
     ctrlRuntimeClient := ctrlRuntimeClient c; dynamicClient := dynamicClient c;
     istioConfig := istioConfig c; remoteConfig := remoteConfig c;
     ctrl := ctrl c |}.

(** [close(ch)]: a nil or an already closed channel panics. *)
Definition close (ch : Chan) : M unit := fun s =>
  match chans s !! ch with
  | None => (Panic "close of nil channel", s)
  | Some true => (Panic "close of closed channel", s)
  | Some false =>
      (Ret tt, {| self := self s; chans := <[ch := true]> (chans s);
                  trace := Closed ch :: trace s |})
  end.

(** [once.Do(f)] where [f] assigns the captured variable [err]: the value of
    [err] afterwards.  The flag is set when [f] returns, however it returns
    (the library sets it in a defer, so also when [f] panics). *)
Definition Once_Do {A} (once : Cluster -> sync.Once)
    (set_once : sync.Once -> Cluster -> Cluster) (f : M A) (captured : A) : M A :=
  fun s =>
    if sync.done_ (once (self s)) then (Ret captured, s)
    else
      let '(r, s') := f s in
      (r, {| self := set_once {| sync.done_ := true |} (self s');
             chans := chans s'; trace := trace s' |}).

Section Methods.

Variable env : Env.

Definition call (c : Call) : M Reply := fun s =>
  let r := env (trace s) c in
  (Ret r, {| self := self s; chans := chans s; trace := Called c r :: trace s |}).

Definition log_Info (msg : string) : M unit := emit (Logged msg).

Definition getRestConfig (kubeconfig : list byte)
  : M (option RestConfig * option error) :=
  r ← call (clientcmd_Load kubeconfig);
  match error_of r with
  | Some e => mret (None, emperror.Wrap (Some e) "could not load kubeconfig")
  | None =>
      r' ← call (clientcmd_ClientConfig (r_handle r));
      match error_of r' with
      | Some e => mret (None, emperror.Wrap (Some e) "could not create k8s rest config")
      | None => mret (Some (r_handle r'), None)
      end
  end.

(** [NewCluster] makes the stop channel, builds the Cluster and derives the
    rest configuration; on failure no Cluster is returned. *)
Definition NewCluster (name_ : string) (ctrl_ : option Controller)
    (config_ : list byte) (chans0 : list bool) (trace0 : list Event)
  : Res (option Cluster * option error) * St :=
  let stop_ := length chans0 in
  let cluster :=
    {| name := name_; config := config_; stop := stop_; stopper := stop_;
       initClient := {| sync.done_ := false |};
       initInformers := {| sync.done_ := false |};
       mgr := None; restConfig := None; ctrlRuntimeClient := None;
       dynamicClient := None; istioConfig := None; remoteConfig := None;
       ctrl := ctrl_ |} in
  ('(rc, err) ← getRestConfig config_;
   match err with
   | Some e => mret (None, emperror.Wrap (Some e) "could not get k8s rest config")
   | None =>
       modify_self (set_restConfig rc);;
       c ← get_self;
       mret (Some c, None)
   end)
    {| self := cluster; chans := chans0 ++ [false]; trace := trace0 |}.

Definition GetName : M string := c ← get_self; mret (name c).

(** The mapper and the filter handed to [c.ctrl.Watch]. *)
Definition namespaceMapper : handler.EnqueueRequestsFromMapFunc :=
  {| handler.ToRequests := fun c object =>
       match remoteConfig c with
       | None => Panic nil_dereference
       | Some rc =>
           Ret [ {| reconcile.NamespacedName :=
                      {| types.Name := istiov1beta1.Name rc;
                         types.Namespace := istiov1beta1.Namespace rc |} |} ]
       end |}.

Definition namespaceFilter : predicate.Funcs :=
  {| predicate.CreateFunc := fun e => true;
     predicate.DeleteFunc := fun e => false;
     predicate.GenericFunc := fun e => false;
     predicate.UpdateFunc := fun o n => false |}.

Definition initK8sInformers : M (option error) :=
  c ← get_self;
  match remoteConfig c with
  | None => mret (Some (ErrorsNew "remoteconfig must be set"))
  | Some _ =>
      match mgr c with
      | None => panic nil_dereference
      | Some m =>
          r ← call (cache_GetInformerForKind m "Namespace");
          match error_of r with
          | Some e =>
              mret (emperror.Wrap (Some e) "could not get informer for namespaces")
          | None =>
              match ctrl c with
              | None => panic nil_dereference
              | Some ctl =>
                  r' ← call (controller_Watch ctl (r_handle r)
                               namespaceMapper namespaceFilter);
                  match error_of r' with
                  | Some e =>
                      mret (emperror.Wrap (Some e)
                              "could not set watcher for namespaces informer")
                  | None => mret None
                  end
              end
          end
      end
  end.

Definition startManager (cfg : option RestConfig) : M (option error) :=
  r ← call (manager_New cfg "0");
  match error_of r with
  | Some e => mret (emperror.Wrap (Some e) "could not create manager")
  | None =>
      modify_self (set_mgr (Some (r_handle r)));;
      c ← get_self;
      emit (Go_Start (r_handle r) (stop c));;
      _ ← call (cache_WaitForCacheSync (r_handle r) (stop c));
      mret None
  end.

Definition initK8SClients : M (option error) :=
  c ← get_self;
  err ← startManager (restConfig c);
  match err with
  | Some e => mret (Some e)
  | None =>
      c ← get_self;
      match mgr c with
      | None => panic nil_dereference
      | Some m =>
          _ ← call (meshgateway_Add m);
          modify_self (set_ctrlRuntimeClient (Some (ClientOf m)));;
          r ← call (dynamic_NewForConfig (restConfig c));
          match error_of r with
          | Some e => mret (emperror.Wrap (Some e) "could not get dynamic client")
          | None =>
              modify_self (set_dynamicClient (Some (r_handle r)));;
              mret None
          end
      end
  end.

Definition reconcileCRDs remote istio : M (option error) :=
  r ← call (cluster_reconcileCRDs remote istio);
  mret (error_of r).

(** One reconciler of the pipeline, called through its method value. *)
Definition run_func (f : ReconcilerFunc) remote istio : M (option error) :=
  r ← call (cluster_step f remote istio);
  (match r_installed r with
   | Some i => modify_self (set_istioConfig (Some i))
   | None => mret tt
   end);;
  mret (error_of r).

Definition ReconcilerFuncs : list ReconcilerFunc :=
  [ reconcileConfig; reconcileSignCert; reconcileCARootToNamespaces;
    reconcileEnabledServices; ReconcileEnabledServiceEndpoints;
    reconcileComponents ].

(** [for _, f := range fs { if err := f(..); err != nil { return Wrapf } }]
    followed by [return nil]. *)
Fixpoint range_funcs (fs : list ReconcilerFunc) remote istio : M (option error) :=
  match fs with
  | [] => mret None
  | f :: fs' =>
      err ← run_func f remote istio;
      match err with
      | Some e => mret (emperror.Wrapf (Some e) "could not reconcile")
      | None => range_funcs fs' remote istio
      end
  end.

Definition Reconcile (remote : option istiov1beta1.RemoteIstio)
    (istio : option istiov1beta1.Istio) : M (option error) :=
  log_Info "reconciling remote istio";;
  err ← reconcileCRDs remote istio;
  match err with
  | Some e => mret (emperror.Wrapf (Some e) "could not reconcile")
  | None =>
      modify_self (set_remoteConfig remote);;
      err ← Once_Do initClient set_initClient initK8SClients err;
      match err with
      | Some e => mret (emperror.Wrap (Some e) "could not init k8s clients")
      | None =>
          err ← Once_Do initInformers set_initInformers initK8sInformers err;
          match err with
          | Some e => mret (emperror.Wrap (Some e) "could not init k8s informers")
          | None => range_funcs ReconcilerFuncs remote istio
          end
      end
  end.

Definition GetRemoteConfig : M (option istiov1beta1.RemoteIstio) :=
  c ← get_self; mret (remoteConfig c).

Definition Delete (obj : Object) : M (option error) :=
  c ← get_self;
  match ctrlRuntimeClient c with
  | None => panic nil_dereference
  | Some cl => r ← call (client_Delete cl obj); mret (error_of r)
  end.

Definition RemoveRemoteIstioComponents : M (option error) :=
  c ← get_self;
  match istioConfig c with
  | None => mret None
  | Some _ =>
      log_Info "removing istio from remote cluster by removing installed CRDs";;
      err ← Delete istiocrd;
      (* the wrapped error of this branch is dropped *)
      let _ :=
        if bool_decide (is_Some err) && negb (k8serrors.IsNotFound err)
        then emperror.Wrap err "could not remove istio CRD from remote cluster"
        else None in
      err ← Delete meshgatewaycrd;
      if bool_decide (is_Some err) && k8serrors.IsNotFound err
      then mret (emperror.Wrap err
                   "could not remove mesh gateway CRD from remote cluster")
      else mret None
  end.

Definition Shutdown : M unit :=
  log_Info "shutdown remote cluster manager";;
  c ← get_self;
  close (stopper c).

End Methods.

(** ** Reading a run *)

(** The statements of [Reconcile] before the pipeline loop: [None] when the
    loop is reached. *)
Definition Reconcile_init (env : Env) (remote : option istiov1beta1.RemoteIstio)
    (istio : option istiov1beta1.Istio) : M (option error) :=
  log_Info "reconciling remote istio";;
  err ← reconcileCRDs env remote istio;
  match err with
  | Some e => mret (emperror.Wrapf (Some e) "could not reconcile")
  | None =>
      modify_self (set_remoteConfig remote);;
      err ← Once_Do initClient set_initClient (initK8SClients env) err;
      match err with
      | Some e => mret (emperror.Wrap (Some e) "could not init k8s clients")
      | None =>
          err ← Once_Do initInformers set_initInformers (initK8sInformers env) err;
          match err with
          | Some e => mret (emperror.Wrap (Some e) "could not init k8s informers")
          | None => mret None
          end
      end
  end.

(** What [c.reconcileCRDs] answers to a [Reconcile] entered in state [s]. *)
Definition pre_reply (env : Env) remote istio (s : St) : Reply :=
  env (Logged "reconciling remote istio" :: trace s)
      (cluster_reconcileCRDs remote istio).

(** The events of a run from [s] to [s'], oldest first. *)
Definition emitted (s s' : St) : list Event :=
  reverse (take (length (trace s') - length (trace s)) (trace s')).
Arguments emitted : simpl never.

(** The reconcilers called, in order, each with the error it returned. *)
Definition steps_run (evs : list Event)
  : list (ReconcilerFunc * option ext_error) :=
  omap (fun e =>
          match e with
          | Called (cluster_step f _ _) r => Some (f, r_err r)
          | _ => None
          end) evs.

Definition step_event remote istio (x : ReconcilerFunc * Reply) : Event :=
  Called (cluster_step x.1 remote istio) x.2.

Definition client_init_call (e : Event) : bool :=
  match e with
  | Called (manager_New _ _) _
  | Called (cache_WaitForCacheSync _ _) _
  | Called (meshgateway_Add _) _
  | Called (dynamic_NewForConfig _) _
  | Go_Start _ _ => true
  | _ => false
  end.

Definition watch_init_call (e : Event) : bool :=
  match e with
  | Called (cache_GetInformerForKind _ _) _
  | Called (controller_Watch _ _ _ _) _ => true
  | _ => false
  end.

(** The phases of [Reconcile], the context each one's error is wrapped in, and
    the inner wrapping of the initialisers. *)
Inductive Phase :=
| PreReconciliation
| ClientInit
| WatchInit
| PipelineStep (f : ReconcilerFunc).

Definition phase_of_call (c : Call) : option Phase :=
  match c with
  | cluster_reconcileCRDs _ _ => Some PreReconciliation
  | manager_New _ _ | dynamic_NewForConfig _ => Some ClientInit
  | cache_GetInformerForKind _ _ | controller_Watch _ _ _ _ => Some WatchInit
  | cluster_step f _ _ => Some (PipelineStep f)
  | _ => None
  end.

Definition phase_context (p : Phase) : string :=
  match p with
  | PreReconciliation | PipelineStep _ => "could not reconcile"
  | ClientInit => "could not init k8s clients"
  | WatchInit => "could not init k8s informers"
  end.

Definition reported (c : Call) (x : ext_error) : error :=
  match c with
  | manager_New _ _ => Wrapped "could not create manager" (External x)
  | dynamic_NewForConfig _ => Wrapped "could not get dynamic client" (External x)
  | cache_GetInformerForKind _ _ =>
      Wrapped "could not get informer for namespaces" (External x)
  | controller_Watch _ _ _ _ =>
      Wrapped "could not set watcher for namespaces informer" (External x)
  | _ => External x
  end.

(** The reconciler whose failure ended the run, if one did. *)
Definition failed_step (evs : list Event) : option ReconcilerFunc :=
  match last (steps_run evs) with
  | Some (f, Some _) => Some f
  | _ => None
  end.

Definition request_for (rc : istiov1beta1.RemoteIstio) : reconcile.Request :=
  {| reconcile.NamespacedName :=
       {| types.Name := istiov1beta1.Name rc;
          types.Namespace := istiov1beta1.Namespace rc |} |}.

Definition watch_ok (remote : option istiov1beta1.RemoteIstio) (e : Event) : Prop :=
  match e with
  | Called (controller_Watch _ _ h p) _ =>
      h = namespaceMapper ∧ p = namespaceFilter ∧ is_Some remote
  | _ => True
  end.

(** How the loop over [fs] went: the reconcilers called with the error each
    returned, and what the loop returned. *)
Inductive pipeline_run :
  list ReconcilerFunc → list (ReconcilerFunc * option ext_error) →
  Res (option error) → Prop :=
| run_done : pipeline_run [] [] (Ret None)
| run_abort f fs e :
    pipeline_run (f :: fs) [(f, Some e)]
      (Ret (Some (Wrapped "could not reconcile" (External e))))
| run_next f fs ran r :
    pipeline_run fs ran r →
    pipeline_run (f :: fs) ((f, None) :: ran) r.

Definition outcome (x : ReconcilerFunc * Reply) : ReconcilerFunc * option ext_error :=
  (x.1, r_err x.2).

(** A series of [Reconcile] calls on the same Cluster (a panic is recovered
    by the caller and the Cluster lives on), and the remote configuration the
    series records: that of the last call whose pre-reconciliation step
    returned nil, [acc] when there is none. *)
Fixpoint reconcile_all (env : Env)
    (calls : list (option istiov1beta1.RemoteIstio * option istiov1beta1.Istio))
    (s : St) : St :=
  match calls with
  | [] => s
  | (remote, istio) :: calls' =>
      reconcile_all env calls' (Reconcile env remote istio s).2
  end.

Fixpoint recorded (env : Env)
    (calls : list (option istiov1beta1.RemoteIstio * option istiov1beta1.Istio))
    (s : St) (acc : option istiov1beta1.RemoteIstio)
  : option istiov1beta1.RemoteIstio :=
  match calls with
  | [] => acc
  | (remote, istio) :: calls' =>
      recorded env calls' (Reconcile env remote istio s).2
        match r_err (pre_reply env remote istio s) with
        | None => remote
        | Some _ => acc
        end
  end.

(** The two lifecycle flags. *)
Definition flag_client (s : St) : bool := sync.done_ (initClient (self s)).
Definition flag_watch (s : St) : bool := sync.done_ (initInformers (self s)).

(** What the two [Delete] calls of [RemoveRemoteIstioComponents] answer when
    it is entered in state [s] with the client [cl]. *)
Definition removing_msg : string :=
  "removing istio from remote cluster by removing installed CRDs".
Definition primary_reply (env : Env) (cl : Client) (s : St) : Reply :=
  env (Logged removing_msg :: trace s) (client_Delete cl istiocrd).
Definition gateway_reply (env : Env) (cl : Client) (s : St) : Reply :=
  env (Called (client_Delete cl istiocrd) (primary_reply env cl s)
         :: Logged removing_msg :: trace s)
      (client_Delete cl meshgatewaycrd).

(** The error returned for an absent gateway resource. *)
Definition gateway_removal_error : error :=
  Wrapped "could not remove mesh gateway CRD from remote cluster"
    (External (APIStatus StatusReasonNotFound)).

(** ** Scenarios *)

Definition rc0 : istiov1beta1.RemoteIstio :=
  {| istiov1beta1.Name := "remote-a"; istiov1beta1.Namespace := "istio-system" |}.
Definition istio0 : istiov1beta1.Istio :=
  {| istiov1beta1.IstioName := "mesh"; istiov1beta1.IstioNamespace := "istio-system" |}.

(** Every collaborator succeeds; [reconcileConfig] records the mesh resource. *)
Definition env_ok : Env := fun _ c =>
  match c with
  | clientcmd_Load _ => built 1
  | clientcmd_ClientConfig _ => built 2
  | manager_New _ _ => built 3
  | dynamic_NewForConfig _ => built 4
  | cache_GetInformerForKind _ _ => built 5
  | cluster_step reconcileConfig _ (Some i) => installed i
  | _ => ok
  end.

(** As [env_ok], except that the call picked by [bad] fails with [e]. *)
Definition env_failing (bad : Call → bool) (e : ext_error) : Env := fun h c =>
  if bad c then failed e else env_ok h c.

Definition is_reconcileCRDs (c : Call) : bool :=
  match c with cluster_reconcileCRDs _ _ => true | _ => false end.
Definition is_manager_New (c : Call) : bool :=
  match c with manager_New _ _ => true | _ => false end.
Definition is_Watch (c : Call) : bool :=
  match c with controller_Watch _ _ _ _ => true | _ => false end.
Definition is_step (f : ReconcilerFunc) (c : Call) : bool :=
  match c, f with
  | cluster_step reconcileConfig _ _, reconcileConfig
  | cluster_step reconcileSignCert _ _, reconcileSignCert
  | cluster_step reconcileCARootToNamespaces _ _, reconcileCARootToNamespaces
  | cluster_step reconcileEnabledServices _ _, reconcileEnabledServices
  | cluster_step ReconcileEnabledServiceEndpoints _ _, ReconcileEnabledServiceEndpoints
  | cluster_step reconcileComponents _ _, reconcileComponents => true
  | _, _ => false
  end.
Definition is_Delete (o : Object) (c : Call) : bool :=
  match c, o with
  | client_Delete _ istiocrd, istiocrd
  | client_Delete _ meshgatewaycrd, meshgatewaycrd => true
  | _, _ => false
  end.

(** A Cluster as [NewCluster] returns it, and the same after one [Reconcile]. *)
Definition boot (env : Env) : St :=
  (NewCluster env "remote-a" (Some 9) [] [] []).2.
Definition reconciled (env : Env) : St :=
  (Reconcile env (Some rc0) (Some istio0) (boot env)).2.

(** ** Further readings of a run *)

(** What the constructor fixes, and the client bundle. *)
Definition identity (c : Cluster) :=
  (name c, config c, stop c, stopper c, restConfig c, ctrl c).
Definition bundle (c : Cluster) :=
  (mgr c, ctrlRuntimeClient c, dynamicClient c).

Definition manager_of (cl : Client) : Manager :=
  match cl with ClientOf m => m end.

(** The bundle hangs together: a dynamic client only beside a structured
    client, the structured client that of the Cluster's manager, a manager
    only once the client initialisation was entered. *)
Definition bundle_consistent (c : Cluster) : Prop :=
  (is_Some (dynamicClient c) → is_Some (ctrlRuntimeClient c))
  ∧ (∀ cl, ctrlRuntimeClient c = Some cl → mgr c = Some (manager_of cl))
  ∧ (is_Some (mgr c) → sync.done_ (initClient c) = true).

Definition ev_manager_New (e : Event) : bool :=
  match e with Called (manager_New _ _) _ => true | _ => false end.
Definition ev_Go_Start (e : Event) : bool :=
  match e with Go_Start _ _ => true | _ => false end.
Definition ev_GetInformerForKind (e : Event) : bool :=
  match e with Called (cache_GetInformerForKind _ _) _ => true | _ => false end.
Definition ev_Watch (e : Event) : bool :=
  match e with Called (controller_Watch _ _ _ _) _ => true | _ => false end.

Fixpoint count (P : Event → bool) (evs : list Event) : nat :=
  match evs with
  | [] => 0
  | e :: evs' => (if P e then 1 else 0) + count P evs'
  end.

(** What one flag still allows: one attempt while it is unset. *)
Definition budget (flag : bool) : nat := if flag then 0 else 1.


(** The events of [NewCluster]: the trace it returns is these, newest first,
    in front of the trace it was given. *)
Definition load_reply (env : Env) (config_ : list byte) (trace0 : list Event) : Reply :=
  env trace0 (clientcmd_Load config_).
Definition client_config_reply (env : Env) (config_ : list byte)
    (trace0 : list Event) : Reply :=
  env (Called (clientcmd_Load config_) (load_reply env config_ trace0) :: trace0)
      (clientcmd_ClientConfig (r_handle (load_reply env config_ trace0))).

(** The background manager is started, and its cache awaited, on the stop
    channel of the Cluster [c0], and is the manager the Cluster [c] holds. *)
Definition manager_event_ok (c0 c : Cluster) (e : Event) : Prop :=
  match e with
  | Go_Start m ch | Called (cache_WaitForCacheSync m ch) _ =>
      ch = stop c0 ∧ mgr c = Some m
  | _ => True
  end.

(** A watch is registered on the controller of [c0], with an informer that
    [evs] shows was obtained for kind "Namespace" from the manager of [c]. *)
Definition watch_wired (c0 c : Cluster) (evs : list Event) (e : Event) : Prop :=
  match e with
  | Called (controller_Watch ctl inf _ _) _ =>
      ctrl c0 = Some ctl ∧
      ∃ m rep, mgr c = Some m ∧
        Called (cache_GetInformerForKind m "Namespace") rep ∈ evs ∧
        r_err rep = None ∧ inf = r_handle rep
  | _ => True
  end.


(** A second Cluster made after the first, in the same channel store. *)
Definition boot_second (env : Env) : St :=
  (NewCluster env "remote-b" (Some 9) [] (chans (boot env)) (trace (boot env))).2.

(** A Cluster whose client initialisation failed, reconciled three times. *)
Definition stuck_without_client : St :=
  reconcile_all (env_failing is_manager_New (APIStatus StatusReasonTimeout))
    [ (Some rc0, Some istio0); (Some rc0, Some istio0); (Some rc0, Some istio0) ]
    (boot env_ok).

(** * Proofs *)

(** ** Symbolic execution of the methods *)

Ltac unfold_methods :=
  unfold Reconcile, Reconcile_init, reconcileCRDs, Once_Do, initK8SClients,
    startManager, initK8sInformers, RemoveRemoteIstioComponents, Delete,
    Shutdown, close, GetRemoteConfig, log_Info, call, emit, modify_self,
    get_self, panic, pre_reply, emperror.Wrapf, emperror.Wrap, error_of,
    mbind, M_bind, mret, M_ret.

(** Names the reply of the oldest call still written as an application of
    the environment. *)
Ltac name_reply :=
  match goal with
  | |- context [?env ?h ?c] =>
      match type of env with Env => idtac end;
      lazymatch h with
      | context [env _ _] => fail
      | _ => let r := fresh "r" in generalize (env h c); intro r
      end
  end.

Ltac branch :=
  match goal with
  | |- context [match r_err ?r with _ => _ end] =>
      is_var r; destruct (r_err r) eqn:?
  | |- context [if sync.done_ ?o then _ else _] => destruct (sync.done_ o) eqn:?
  | |- context [match mgr ?c with _ => _ end] => destruct (mgr c) eqn:?
  | |- context [match ctrl ?c with _ => _ end] => destruct (ctrl c) eqn:?
  | |- context [match remoteConfig ?c with _ => _ end] =>
      destruct (remoteConfig c) eqn:?
  | |- context [match ?remote with Some _ => _ | None => _ end] =>
      is_var remote; destruct remote
  end.

Ltac exec :=
  unfold_methods; cbn -[range_funcs];
  repeat (first [name_reply | branch]; cbn -[range_funcs]).

Lemma emitted_app s s' evs :
  trace s' = evs ++ trace s → emitted s s' = reverse evs.
Proof.
  intros H. unfold emitted. rewrite H, length_app.
  replace (length evs + length (trace s) - length (trace s)) with (length evs) by lia.
  by rewrite take_app_length.
Qed.

Lemma emitted_trans s s1 s' evs1 evs :
  trace s1 = evs1 ++ trace s →
  trace s' = evs ++ trace s1 →
  emitted s s' = emitted s s1 ++ reverse evs.
Proof.
  intros H1 H.
  rewrite (emitted_app s s1 evs1 H1), (emitted_app s s' (evs ++ evs1)).
  - by rewrite reverse_app.
  - by rewrite H, H1, app_assoc.
Qed.

Ltac prefix_of t base :=
  lazymatch t with
  | base => constr:(@nil Event)
  | ?e :: ?t' => let r := prefix_of t' base in constr:(e :: r)
  end.

(** Rewrites [emitted s s'] to the list of its events once the trace of [s']
    is the trace of [s] with explicit events in front. *)
Ltac read_emitted :=
  repeat match goal with
  | |- context [emitted ?s ?s'] =>
      let t' := eval cbn in (trace s') in
      let t := eval cbn in (trace s) in
      let p := prefix_of t' t in
      rewrite (emitted_app s s' p eq_refl)
  end;
  cbn.

(** ** The pipeline loop *)

Lemma steps_run_step_events remote istio reps :
  steps_run (step_event remote istio <$> reps) = outcome <$> reps.
Proof.
  unfold steps_run. induction reps as [|[f r] reps IH]; [done|].
  cbn. by f_equal.
Qed.

Lemma range_funcs_run env remote istio fs s :
  ∃ reps,
    pipeline_run fs (outcome <$> reps) (range_funcs env fs remote istio s).1 ∧
    trace (range_funcs env fs remote istio s).2 =
      reverse (step_event remote istio <$> reps) ++ trace s ∧
    chans (range_funcs env fs remote istio s).2 = chans s ∧
    set_istioConfig None (self (range_funcs env fs remote istio s).2) =
      set_istioConfig None (self s).
Proof.
  revert s. induction fs as [|f fs IH]; intros s.
  { exists []. cbn. repeat split. constructor. }
  cbn [range_funcs].
  unfold run_func, call, modify_self, error_of, emperror.Wrapf, emperror.Wrap,
    mbind, M_bind, mret, M_ret.
  cbn -[range_funcs].
  generalize (env (trace s) (cluster_step f remote istio)). intros r.
  destruct (r_installed r), (r_err r) eqn:E; cbn -[range_funcs].
  1,3: exists [(f, r)]; unfold outcome; cbn; rewrite E;
       repeat split; constructor.
  all: match goal with
       | |- context [range_funcs _ _ _ _ ?s1] =>
           destruct (IH s1) as (reps & Hrun & Htr & Hch & Hself)
       end;
       exists ((f, r) :: reps); unfold outcome at 1; cbn [fmap list_fmap fst snd];
       rewrite E, Htr, Hch, Hself, reverse_cons, <- app_assoc;
       repeat split; by constructor.
Qed.

Lemma pipeline_run_prefix fs ran r :
  pipeline_run fs ran r → ran.*1 `prefix_of` fs.
Proof.
  induction 1 as [|f fs e|f fs ran r _ IH]; cbn.
  - done.
  - by exists fs.
  - destruct IH as [k ->]. by exists k.
Qed.

Lemma pipeline_run_success fs ran :
  pipeline_run fs ran (Ret None) → ran = (λ f, (f, None)) <$> fs.
Proof.
  remember (Ret None) as r eqn:Hr. induction 1 as [|f fs e|f fs ran r _ IH].
  - done.
  - discriminate.
  - cbn. f_equal. by apply IH.
Qed.

Lemma pipeline_run_failure fs ran r :
  pipeline_run fs ran r →
  ∀ pre f e post, ran = pre ++ (f, Some e) :: post →
    post = [] ∧ Forall (λ x, x.2 = None) pre ∧
    r = Ret (Some (Wrapped "could not reconcile" (External e))).
Proof.
  induction 1 as [|f0 fs e0|f0 fs ran r _ IH]; intros pre f e post Heq.
  - by destruct pre.
  - destruct pre as [|x [|y pre]]; simplify_eq/=. by repeat split.
  - destruct pre as [|x pre]; simplify_eq/=.
    destruct (IH pre f e post eq_refl) as (-> & Hpre & ->).
    repeat split. by constructor.
Qed.

Lemma pipeline_run_returns fs ran r :
  pipeline_run fs ran r →
  r = Ret None ∨
  ∃ pre f e, ran = pre ++ [(f, Some e)] ∧
    r = Ret (Some (Wrapped "could not reconcile" (External e))).
Proof.
  induction 1 as [|f fs e|f fs ran r _ IH].
  - by left.
  - right. by exists [], f, e.
  - destruct IH as [->|(pre & g & e & -> & ->)]; [by left|].
    right. by exists ((f, None) :: pre), g, e.
Qed.

(** ** [Reconcile] is its initial statements followed by the loop *)

Lemma Reconcile_split env remote istio s :
  Reconcile env remote istio s =
  (err ← Reconcile_init env remote istio;
   match err with
   | Some e => mret (Some e)
   | None => range_funcs env ReconcilerFuncs remote istio
   end) s.
Proof. exec; reflexivity. Qed.

Lemma init_extends env remote istio s :
  ∃ evs, trace (Reconcile_init env remote istio s).2 = evs ++ trace s.
Proof.
  exec;
    match goal with
    | |- ∃ evs, ?t = evs ++ ?base => let p := prefix_of t base in by exists p
    end.
Qed.

Lemma Reconcile_shape env remote istio s :
  let i := Reconcile_init env remote istio s in
  let f := Reconcile env remote istio s in
  (i.1 = Ret None ∧
   ∃ reps,
     pipeline_run ReconcilerFuncs (outcome <$> reps) f.1 ∧
     emitted s f.2 = emitted s i.2 ++ (step_event remote istio <$> reps) ∧
     chans f.2 = chans i.2 ∧
     set_istioConfig None (self f.2) = set_istioConfig None (self i.2))
  ∨ (i.1 ≠ Ret None ∧ f = i).
Proof.
  cbn zeta. rewrite Reconcile_split. unfold mbind, M_bind.
  destruct (init_extends env remote istio s) as [evs1 Hevs1].
  destruct (Reconcile_init env remote istio s) as [[[e|]|m] s1];
    cbn [fst snd mret M_ret] in *.
  - right. by split.
  - left. split; [done|].
    destruct (range_funcs_run env remote istio ReconcilerFuncs s1)
      as (reps & Hrun & Htr & Hch & Hself).
    exists reps. repeat split; try done.
    rewrite (emitted_trans s s1 _ _ _ Hevs1 Htr).
    by rewrite reverse_involutive.
  - right. by split.
Qed.

Lemma init_no_steps env remote istio s :
  steps_run (emitted s (Reconcile_init env remote istio s).2) = [].
Proof. exec; read_emitted; reflexivity. Qed.

Lemma init_chans env remote istio s :
  chans (Reconcile_init env remote istio s).2 = chans s.
Proof. exec; reflexivity. Qed.

Lemma init_remoteConfig env remote istio s :
  remoteConfig (self (Reconcile_init env remote istio s).2) =
  match r_err (pre_reply env remote istio s) with
  | None => remote
  | Some _ => remoteConfig (self s)
  end.
Proof. exec; reflexivity. Qed.

(** The events of a whole [Reconcile], read as reconciler calls. *)
Lemma Reconcile_steps env remote istio s :
  pipeline_run ReconcilerFuncs
    (steps_run (emitted s (Reconcile env remote istio s).2))
    (Reconcile env remote istio s).1
  ∨ (steps_run (emitted s (Reconcile env remote istio s).2) = [] ∧
     (Reconcile env remote istio s).1 ≠ Ret None).
Proof.
  destruct (Reconcile_shape env remote istio s)
    as [(_ & reps & Hrun & Hem & _)|[Hne ->]].
  - left. unfold steps_run in *. rewrite Hem, omap_app.
    fold (steps_run (emitted s (Reconcile_init env remote istio s).2)).
    rewrite init_no_steps. cbn [app].
    fold (steps_run (step_event remote istio <$> reps)).
    by rewrite steps_run_step_events.
  - right. split; [apply init_no_steps|done].
Qed.

(** ** The pipeline (C4) *)

(** C4. Every [Reconcile] that returns nil has called exactly the six
    reconcilers, in the order configuration, signing certificate, CA root to
    namespaces, enabled services, service endpoints, components, each
    returning nil.  In every run the reconcilers called are an initial
    segment of that list; when one of them fails it is the last one called,
    all before it returned nil, and [Reconcile] returns its error wrapped. *)
Theorem Reconcile_pipeline_in_order env remote istio s :
  let r := (Reconcile env remote istio s).1 in
  let ran := steps_run (emitted s (Reconcile env remote istio s).2) in
  (r = Ret None →
   ran = [ (reconcileConfig, None); (reconcileSignCert, None);
           (reconcileCARootToNamespaces, None); (reconcileEnabledServices, None);
           (ReconcileEnabledServiceEndpoints, None); (reconcileComponents, None) ])
  ∧ ran.*1 `prefix_of` ReconcilerFuncs
  ∧ (∀ pre f e post, ran = pre ++ (f, Some e) :: post →
       post = [] ∧ Forall (λ x, x.2 = None) pre ∧
       ran.*1 = take (S (length pre)) ReconcilerFuncs ∧
       r = Ret (Some (Wrapped "could not reconcile" (External e)))).
Proof.
  cbn zeta.
  destruct (Reconcile_steps env remote istio s) as [Hrun|[-> Hne]].
  - split; [|split].
    + intros Hr. rewrite Hr in Hrun. by apply pipeline_run_success in Hrun.
    + by eapply pipeline_run_prefix.
    + intros pre f e post Heq.
      destruct (pipeline_run_failure _ _ _ Hrun _ _ _ _ Heq) as (-> & Hpre & Hr).
      repeat split; try done.
      destruct (pipeline_run_prefix _ _ _ Hrun) as [k Hk].
      rewrite Hk, Heq, take_app_length'; [done|].
      by rewrite length_fmap, length_app, Nat.add_comm.
  - split; [done|split].
    + by exists ReconcilerFuncs.
    + intros pre f e post Heq. by destruct pre.
Qed.

Lemma same_but_istio_fields c c' :
  set_istioConfig None c = set_istioConfig None c' →
  remoteConfig c = remoteConfig c' ∧ initClient c = initClient c' ∧
  initInformers c = initInformers c'.
Proof.
  intros H. repeat split.
  - apply (f_equal remoteConfig) in H. exact H.
  - apply (f_equal initClient) in H. exact H.
  - apply (f_equal initInformers) in H. exact H.
Qed.

Lemma Reconcile_pipeline_in_order_witness :
  steps_run (emitted (boot env_ok) (reconciled env_ok)) =
  [ (reconcileConfig, None); (reconcileSignCert, None);
    (reconcileCARootToNamespaces, None); (reconcileEnabledServices, None);
    (ReconcileEnabledServiceEndpoints, None); (reconcileComponents, None) ].
Proof.
  exact (proj1 (Reconcile_pipeline_in_order env_ok (Some rc0) (Some istio0)
                  (boot env_ok)) eq_refl).
Defined.

(** The third reconciler fails: the first two ran, the last three did not. *)
Example third_step_fails :
  steps_run
    (emitted (boot env_ok)
       (Reconcile (env_failing (is_step reconcileCARootToNamespaces)
                     (APIStatus StatusReasonForbidden))
          (Some rc0) (Some istio0) (boot env_ok)).2)
  = [ (reconcileConfig, None); (reconcileSignCert, None);
      (reconcileCARootToNamespaces, Some (APIStatus StatusReasonForbidden)) ]
  ∧ (Reconcile (env_failing (is_step reconcileCARootToNamespaces)
                  (APIStatus StatusReasonForbidden))
       (Some rc0) (Some istio0) (boot env_ok)).1
    = Ret (Some (Wrapped "could not reconcile"
                   (External (APIStatus StatusReasonForbidden)))).
Proof. split; vm_compute; reflexivity. Qed.

(** ** The recorded remote configuration (C7) *)

Lemma Reconcile_remoteConfig env remote istio s :
  remoteConfig (self (Reconcile env remote istio s).2) =
  match r_err (pre_reply env remote istio s) with
  | None => remote
  | Some _ => remoteConfig (self s)
  end.
Proof.
  rewrite <- init_remoteConfig.
  destruct (Reconcile_shape env remote istio s)
    as [(_ & reps & _ & _ & _ & Hself)|[_ ->]]; [|done].
  by apply same_but_istio_fields in Hself as (? & _).
Qed.

Lemma reconcile_all_remoteConfig env calls :
  ∀ s, remoteConfig (self (reconcile_all env calls s)) =
       recorded env calls s (remoteConfig (self s)).
Proof.
  induction calls as [|[remote istio] calls IH]; intros s; [done|].
  cbn [reconcile_all recorded]. by rewrite IH, Reconcile_remoteConfig.
Qed.

Lemma NewCluster_fields env name_ ctrl_ config_ chans0 trace0 :
  let c := self (NewCluster env name_ ctrl_ config_ chans0 trace0).2 in
  remoteConfig c = None ∧ istioConfig c = None ∧ ctrlRuntimeClient c = None.
Proof.
  unfold NewCluster, getRestConfig, call, modify_self, get_self, error_of,
    emperror.Wrap, mbind, M_bind, mret, M_ret.
  cbn. repeat (first [name_reply | branch]; cbn). all: by repeat split.
Qed.

(** C7. After [Reconcile remote istio], [GetRemoteConfig] returns [remote]
    whenever the pre-reconciliation step returned nil, whatever happened
    afterwards (a failed initialisation, a failed reconciler, a panic); when
    the pre-reconciliation step failed it returns what it returned before.
    So after any series of calls it returns the argument of the last call
    that got past the pre-reconciliation step.  On a Cluster fresh from
    [NewCluster] it returns nil. *)
Theorem GetRemoteConfig_most_recent :
  (∀ env remote istio s,
     (GetRemoteConfig (Reconcile env remote istio s).2).1 =
     match r_err (pre_reply env remote istio s) with
     | None => Ret remote
     | Some _ => (GetRemoteConfig s).1
     end)
  ∧ (∀ env calls s,
       (GetRemoteConfig (reconcile_all env calls s)).1 =
       Ret (recorded env calls s (remoteConfig (self s))))
  ∧ (∀ env name_ ctrl_ config_ chans0 trace0,
       (GetRemoteConfig (NewCluster env name_ ctrl_ config_ chans0 trace0).2).1 =
       Ret None).
Proof.
  unfold GetRemoteConfig, get_self, mbind, M_bind, mret, M_ret. cbn.
  split; [|split].
  - intros env remote istio s. rewrite Reconcile_remoteConfig.
    by destruct (r_err _).
  - intros env calls s. by rewrite reconcile_all_remoteConfig.
  - intros env name_ ctrl_ config_ chans0 trace0.
    by destruct (NewCluster_fields env name_ ctrl_ config_ chans0 trace0)
      as (-> & _).
Qed.

(** A reconciler fails after the remote configuration was recorded. *)
Example remote_config_recorded_before_failure :
  (Reconcile (env_failing (is_step reconcileConfig) (APIStatus StatusReasonTimeout))
     (Some rc0) (Some istio0) (boot env_ok)).1
  = Ret (Some (Wrapped "could not reconcile" (External (APIStatus StatusReasonTimeout))))
  ∧ (GetRemoteConfig
       (Reconcile (env_failing (is_step reconcileConfig) (APIStatus StatusReasonTimeout))
          (Some rc0) (Some istio0) (boot env_ok)).2).1
    = Ret (Some rc0).
Proof. split; vm_compute; reflexivity. Qed.

(** ** The lifecycle flags (C1) *)

Lemma init_flags env remote istio s :
  let i := Reconcile_init env remote istio s in
  (sync.done_ (initClient (self s)) = true →
   sync.done_ (initClient (self i.2)) = true ∧
   Forall (λ e, client_init_call e = false) (emitted s i.2))
  ∧ (sync.done_ (initInformers (self s)) = true →
     sync.done_ (initInformers (self i.2)) = true ∧
     Forall (λ e, watch_init_call e = false) (emitted s i.2))
  ∧ (∀ e, i.1 = Ret (Some (Wrapped "could not init k8s clients" e)) →
       sync.done_ (initClient (self i.2)) = true)
  ∧ (∀ e, i.1 = Ret (Some (Wrapped "could not init k8s informers" e)) →
       sync.done_ (initInformers (self i.2)) = true)
  ∧ (i.1 = Ret None →
     sync.done_ (initClient (self i.2)) = true ∧
     sync.done_ (initInformers (self i.2)) = true).
Proof.
  cbn zeta. exec; read_emitted;
    repeat split; intros; simplify_eq; try done; repeat constructor.
Qed.

Lemma step_events_not_init remote istio reps :
  Forall (λ e, client_init_call e = false) (step_event remote istio <$> reps) ∧
  Forall (λ e, watch_init_call e = false) (step_event remote istio <$> reps).
Proof. split; apply Forall_fmap, Forall_true; by intros [f r]. Qed.

(** C1, as amended. The flag of an initialisation is set by the [Reconcile]
    that attempts it, whether the attempt succeeds or fails: after a
    [Reconcile] that returned a client (watch) initialisation error the
    client (watch) flag is set, as it is after one that returned nil.  A set
    flag stays set, and a [Reconcile] entered with the flag set makes no call
    of that initialisation: a failed attempt is not retried. *)
Theorem lifecycle_flag_set_by_the_attempt env remote istio s :
  let out := Reconcile env remote istio s in
  (∀ e, out.1 = Ret (Some (Wrapped "could not init k8s clients" e)) →
     flag_client out.2 = true)
  ∧ (∀ e, out.1 = Ret (Some (Wrapped "could not init k8s informers" e)) →
       flag_watch out.2 = true)
  ∧ (out.1 = Ret None → flag_client out.2 = true ∧ flag_watch out.2 = true)
  ∧ (flag_client s = true →
     flag_client out.2 = true ∧
     Forall (λ e, client_init_call e = false) (emitted s out.2))
  ∧ (flag_watch s = true →
     flag_watch out.2 = true ∧
     Forall (λ e, watch_init_call e = false) (emitted s out.2)).
Proof.
  cbn zeta. unfold flag_client, flag_watch.
  pose proof (init_flags env remote istio s) as (Hc & Hw & Hce & Hwe & Hok).
  destruct (Reconcile_shape env remote istio s)
    as [(Hinit & reps & Hrun & Hem & _ & Hself)|[_ ->]];
    [|exact (conj Hce (conj Hwe (conj Hok (conj Hc Hw))))].
  apply same_but_istio_fields in Hself as (_ & -> & ->).
  destruct (Hok Hinit) as [Hc1 Hw1].
  destruct (step_events_not_init remote istio reps) as [Hsc Hsw].
  rewrite Hem. repeat split; try done.
  - apply Forall_app. split; [by apply Hc|done].
  - apply Forall_app. split; [by apply Hw|done].
Qed.

(** C1, as stated, fails. The manager cannot be created: the first
    [Reconcile] returns the client initialisation error and leaves the client
    flag set with no client built; the next [Reconcile] makes no client
    initialisation call at all, and goes on to the informers with a nil
    manager. *)
Lemma failed_client_init_is_not_retried :
  (Reconcile (env_failing is_manager_New (APIStatus StatusReasonTimeout))
     (Some rc0) (Some istio0)
     (boot (env_failing is_manager_New (APIStatus StatusReasonTimeout)))).1 =
    Ret (Some (Wrapped "could not init k8s clients"
                 (Wrapped "could not create manager"
                    (External (APIStatus StatusReasonTimeout)))))
  ∧ flag_client (reconciled (env_failing is_manager_New (APIStatus StatusReasonTimeout)))
    = true
  ∧ ctrlRuntimeClient
      (self (reconciled (env_failing is_manager_New (APIStatus StatusReasonTimeout))))
    = None
  ∧ filter (λ e, client_init_call e = true)
      (emitted
         (reconciled (env_failing is_manager_New (APIStatus StatusReasonTimeout)))
         (Reconcile (env_failing is_manager_New (APIStatus StatusReasonTimeout))
            (Some rc0) (Some istio0)
            (reconciled (env_failing is_manager_New (APIStatus StatusReasonTimeout)))).2)
    = []
  ∧ (Reconcile (env_failing is_manager_New (APIStatus StatusReasonTimeout))
       (Some rc0) (Some istio0)
       (reconciled (env_failing is_manager_New (APIStatus StatusReasonTimeout)))).1
    = Panic nil_dereference.
Proof. repeat split; vm_compute; reflexivity. Qed.

Lemma lifecycle_flag_set_by_the_attempt_witness :
  flag_client (reconciled (env_failing is_manager_New (APIStatus StatusReasonTimeout)))
  = true.
Proof.
  exact (proj1 (lifecycle_flag_set_by_the_attempt
                  (env_failing is_manager_New (APIStatus StatusReasonTimeout))
                  (Some rc0) (Some istio0)
                  (boot (env_failing is_manager_New (APIStatus StatusReasonTimeout))))
               _ eq_refl).
Defined.

(** ** The context of a returned error (C5) *)

Lemma init_error env remote istio s e :
  (Reconcile_init env remote istio s).1 = Ret (Some e) →
  (∃ c rep x p,
     last (emitted s (Reconcile_init env remote istio s).2) = Some (Called c rep) ∧
     r_err rep = Some x ∧ phase_of_call c = Some p ∧
     e = Wrapped (phase_context p) (reported c x))
  ∨ (remote = None ∧
     e = Wrapped "could not init k8s informers" (ErrorsNew "remoteconfig must be set")).
Proof.
  exec; read_emitted; intros; simplify_eq;
    first [ by right
          | left; do 4 eexists; split; [reflexivity|];
            split; [eassumption|]; split; reflexivity ].
Qed.

(** C5, as amended. An error returned by [Reconcile] is the error of the call
    that failed, the last call of the run, wrapped in the context of its
    phase: "could not reconcile" for the pre-reconciliation step and for each
    of the six reconcilers alike, "could not init k8s clients" and "could not
    init k8s informers" for the two initialisations (whose own errors carry
    an inner context naming the call).  The one error that comes from no call
    is the unset remote configuration of the informer initialisation. *)
Theorem Reconcile_error_context env remote istio s e :
  (Reconcile env remote istio s).1 = Ret (Some e) →
  (∃ c rep x p,
     last (emitted s (Reconcile env remote istio s).2) = Some (Called c rep) ∧
     r_err rep = Some x ∧ phase_of_call c = Some p ∧
     e = Wrapped (phase_context p) (reported c x))
  ∨ (remote = None ∧
     e = Wrapped "could not init k8s informers" (ErrorsNew "remoteconfig must be set")).
Proof.
  intros He.
  destruct (Reconcile_shape env remote istio s)
    as [(_ & reps & Hrun & Hem & _)|[_ Heq]].
  - left. destruct (pipeline_run_returns _ _ _ Hrun)
      as [Hr|(pre & f & x & Hran & Hr)]; [congruence|].
    apply fmap_app_inv in Hran as (reps1 & reps2 & _ & Hlast & ->).
    destruct reps2 as [|[f' rep] [|]]; try discriminate.
    injection Hlast as -> Hx.
    exists (cluster_step f' remote istio), rep, x, (PipelineStep f').
    rewrite Hem, fmap_app, app_assoc. cbn. rewrite last_snoc.
    split; [done|]. split; [done|]. split; [done|]. congruence.
  - rewrite Heq in *. by apply init_error.
Qed.

(** C5, as stated, fails. The same error comes back whether the
    pre-reconciliation step, the first reconciler or the second reconciler
    failed: the context does not tell them apart. *)
Lemma failing_step_not_identified :
  (Reconcile (env_failing (is_step reconcileConfig) (APIStatus StatusReasonTimeout))
     (Some rc0) (Some istio0) (boot env_ok)).1
  = Ret (Some (Wrapped "could not reconcile" (External (APIStatus StatusReasonTimeout))))
  ∧ (Reconcile (env_failing (is_step reconcileSignCert) (APIStatus StatusReasonTimeout))
       (Some rc0) (Some istio0) (boot env_ok)).1
    = Ret (Some (Wrapped "could not reconcile" (External (APIStatus StatusReasonTimeout))))
  ∧ (Reconcile (env_failing is_reconcileCRDs (APIStatus StatusReasonTimeout))
       (Some rc0) (Some istio0) (boot env_ok)).1
    = Ret (Some (Wrapped "could not reconcile" (External (APIStatus StatusReasonTimeout))))
  ∧ failed_step
      (emitted (boot env_ok)
         (Reconcile (env_failing (is_step reconcileConfig) (APIStatus StatusReasonTimeout))
            (Some rc0) (Some istio0) (boot env_ok)).2)
    = Some reconcileConfig
  ∧ failed_step
      (emitted (boot env_ok)
         (Reconcile (env_failing (is_step reconcileSignCert) (APIStatus StatusReasonTimeout))
            (Some rc0) (Some istio0) (boot env_ok)).2)
    = Some reconcileSignCert
  ∧ failed_step
      (emitted (boot env_ok)
         (Reconcile (env_failing is_reconcileCRDs (APIStatus StatusReasonTimeout))
            (Some rc0) (Some istio0) (boot env_ok)).2)
    = None.
Proof. repeat split; vm_compute; reflexivity. Qed.

Lemma Reconcile_error_context_witness :
  (∃ c rep x p,
     last (emitted (boot env_ok)
             (Reconcile (env_failing is_Watch (Other "no kind Namespace"))
                (Some rc0) (Some istio0) (boot env_ok)).2) = Some (Called c rep) ∧
     r_err rep = Some x ∧ phase_of_call c = Some p ∧
     Wrapped "could not init k8s informers"
       (Wrapped "could not set watcher for namespaces informer"
          (External (Other "no kind Namespace")))
     = Wrapped (phase_context p) (reported c x))
  ∨ (Some rc0 = None ∧
     Wrapped "could not init k8s informers"
       (Wrapped "could not set watcher for namespaces informer"
          (External (Other "no kind Namespace")))
     = Wrapped "could not init k8s informers" (ErrorsNew "remoteconfig must be set")).
Proof.
  exact (Reconcile_error_context (env_failing is_Watch (Other "no kind Namespace"))
           (Some rc0) (Some istio0) (boot env_ok) _ eq_refl).
Defined.

(** ** The namespace watch (C6) *)

Lemma namespaceFilter_accepts ev :
  predicate.accepts namespaceFilter ev = true ↔ ∃ o, ev = CreateEvent o.
Proof.
  destruct ev; cbn; split; try discriminate; eauto;
    intros [? ?]; discriminate.
Qed.

Lemma namespaceMapper_requests c rc obj :
  remoteConfig c = Some rc →
  handler.ToRequests namespaceMapper c obj = Ret [request_for rc].
Proof. intros H. cbn. by rewrite H. Qed.

Lemma init_watch env remote istio s :
  Forall (watch_ok remote) (emitted s (Reconcile_init env remote istio s).2).
Proof. exec; read_emitted; repeat constructor; eauto. Qed.

Lemma init_watch_recorded env remote istio s :
  Forall (λ e, watch_init_call e = true →
               remoteConfig (self (Reconcile_init env remote istio s).2) = remote)
         (emitted s (Reconcile_init env remote istio s).2).
Proof. exec; read_emitted; repeat constructor; cbn; intros; done. Qed.

(** C6. A watch registered by [Reconcile] accepts the creation events and no
    other, and its mapper answers every object with the one request naming
    the remote configuration of the Cluster: the one just recorded by this
    [Reconcile], and later whichever the Cluster holds when the event
    arrives. *)
Theorem namespace_watch_create_only_fixed_trigger
    env remote istio s ctl inf h p rep :
  Called (controller_Watch ctl inf h p) rep
    ∈ emitted s (Reconcile env remote istio s).2 →
  (∀ ev, predicate.accepts p ev = true ↔ ∃ o, ev = CreateEvent o)
  ∧ (∃ rc, remote = Some rc ∧
       ∀ obj, handler.ToRequests h (self (Reconcile env remote istio s).2) obj
              = Ret [request_for rc])
  ∧ (∀ c rc obj, remoteConfig c = Some rc →
       handler.ToRequests h c obj = Ret [request_for rc]).
Proof.
  intros Hin.
  assert (Called (controller_Watch ctl inf h p) rep
            ∈ emitted s (Reconcile_init env remote istio s).2 ∧
          remoteConfig (self (Reconcile env remote istio s).2) =
          remoteConfig (self (Reconcile_init env remote istio s).2)) as [Hin' Hrc].
  { destruct (Reconcile_shape env remote istio s)
      as [(_ & reps & _ & Hem & _ & Hself)|[_ Heq]];
      [|rewrite Heq in *; by split].
    apply same_but_istio_fields in Hself as (-> & _). split; [|done].
    rewrite Hem in Hin. apply elem_of_app in Hin as [Hin|Hin]; [done|].
    apply list_elem_of_fmap in Hin as ([f r] & Heq & _). discriminate. }
  pose proof (init_watch env remote istio s) as Hok.
  pose proof (init_watch_recorded env remote istio s) as Hrec.
  rewrite Forall_forall in Hok, Hrec.
  destruct (Hok _ Hin') as (-> & -> & [rc ->]).
  specialize (Hrec _ Hin' eq_refl). rewrite <- Hrc in Hrec.
  split; [apply namespaceFilter_accepts|]. split.
  - exists rc. split; [done|]. intros obj. by apply namespaceMapper_requests.
  - apply namespaceMapper_requests.
Qed.

Lemma namespace_watch_create_only_fixed_trigger_witness :
  (∀ ev, predicate.accepts namespaceFilter ev = true ↔ ∃ o, ev = CreateEvent o)
  ∧ (∃ rc, Some rc0 = Some rc ∧
       ∀ obj, handler.ToRequests namespaceMapper (self (reconciled env_ok)) obj
              = Ret [request_for rc])
  ∧ (∀ c rc obj, remoteConfig c = Some rc →
       handler.ToRequests namespaceMapper c obj = Ret [request_for rc]).
Proof.
  apply (namespace_watch_create_only_fixed_trigger env_ok (Some rc0) (Some istio0)
           (boot env_ok) 9 5 namespaceMapper namespaceFilter ok).
  vm_compute. do 8 apply list_elem_of_further. apply list_elem_of_here.
Defined.

(** ** The guard of the informer initialisation (C10) *)

Lemma init_guard env rc istio s e :
  (Reconcile_init env (Some rc) istio s).1 = Ret (Some e) →
  root_cause e ≠ ErrorsNew "remoteconfig must be set".
Proof. exec; intros; simplify_eq; cbn; discriminate. Qed.

(** C10. A [Reconcile] called with a remote configuration that is not nil
    never takes the branch of the informer initialisation that reports it
    unset: no error it returns has that error at its root. *)
Theorem remoteconfig_guard_unreachable env rc istio s e :
  (Reconcile env (Some rc) istio s).1 = Ret (Some e) →
  root_cause e ≠ ErrorsNew "remoteconfig must be set".
Proof.
  intros He.
  destruct (Reconcile_shape env (Some rc) istio s)
    as [(_ & reps & Hrun & _)|[_ Heq]].
  - destruct (pipeline_run_returns _ _ _ Hrun) as [Hr|(pre & f & x & _ & Hr)];
      [congruence|].
    rewrite Hr in He. by simplify_eq.
  - rewrite Heq in He. by eapply init_guard.
Qed.

Lemma remoteconfig_guard_unreachable_witness :
  root_cause
    (Wrapped "could not init k8s informers"
       (Wrapped "could not set watcher for namespaces informer"
          (External (Other "no kind Namespace"))))
  ≠ ErrorsNew "remoteconfig must be set".
Proof.
  exact (remoteconfig_guard_unreachable
           (env_failing is_Watch (Other "no kind Namespace"))
           rc0 (Some istio0) (boot env_ok) _ eq_refl).
Defined.

(** With a nil remote configuration the branch is taken. *)
Example remoteconfig_guard_taken_on_nil :
  (Reconcile env_ok None (Some istio0) (boot env_ok)).1 =
  Ret (Some (Wrapped "could not init k8s informers"
               (ErrorsNew "remoteconfig must be set"))).
Proof. reflexivity. Qed.

(** ** Removal (C2, C3, C8) *)

Lemma Remove_runs env s i cl :
  istioConfig (self s) = Some i →
  ctrlRuntimeClient (self s) = Some cl →
  RemoveRemoteIstioComponents env s =
  (Ret (if k8serrors.IsNotFound (error_of (gateway_reply env cl s))
        then Some gateway_removal_error else None),
   {| self := self s; chans := chans s;
      trace := Called (client_Delete cl meshgatewaycrd) (gateway_reply env cl s)
               :: Called (client_Delete cl istiocrd) (primary_reply env cl s)
               :: Logged removing_msg :: trace s |}).
Proof.
  intros Hi Hcl.
  unfold RemoveRemoteIstioComponents, Delete, log_Info, call, emit, get_self,
    panic, gateway_reply, primary_reply, removing_msg, mbind, M_bind, mret, M_ret.
  unfold error_of, emperror.Wrap.
  cbn. rewrite Hi. cbn. rewrite Hcl. cbn. rewrite Hcl. cbn.
  repeat name_reply.
  repeat match goal with
         | |- context [r_err ?r] => destruct (r_err r) as [[[]|]|]
         end;
    reflexivity.
Qed.

(** C2. With components recorded as installed (and a client built),
    [RemoveRemoteIstioComponents] deletes the primary mesh resource and then
    the gateway resource.  An already absent primary resource is no failure:
    with the gateway delete returning nil the removal returns nil.  An
    already absent gateway resource is returned as an error.  Over all
    outcomes of the two deletes, the removal returns nil exactly when the
    gateway delete did not report not-found. *)
Theorem removal_not_found_asymmetry env s i cl :
  istioConfig (self s) = Some i →
  ctrlRuntimeClient (self s) = Some cl →
  let p := primary_reply env cl s in
  let g := gateway_reply env cl s in
  let out := RemoveRemoteIstioComponents env s in
  emitted s out.2 =
    [ Logged removing_msg; Called (client_Delete cl istiocrd) p;
      Called (client_Delete cl meshgatewaycrd) g ]
  ∧ (r_err p = Some (APIStatus StatusReasonNotFound) → r_err g = None →
     out.1 = Ret None)
  ∧ (r_err g = Some (APIStatus StatusReasonNotFound) →
     out.1 = Ret (Some gateway_removal_error))
  ∧ (out.1 = Ret None ↔ r_err g ≠ Some (APIStatus StatusReasonNotFound)).
Proof.
  intros Hi Hcl. cbn zeta. rewrite (Remove_runs env s i cl Hi Hcl).
  split; [|split; [|split]].
  - by read_emitted.
  - intros _ Hg. cbn. unfold error_of. by rewrite Hg.
  - intros Hg. cbn. unfold error_of. by rewrite Hg.
  - cbn. unfold error_of.
    destruct (r_err (gateway_reply env cl s)) as [[[]|]|]; cbn;
      split; intros; try done; congruence.
Qed.

Lemma removal_not_found_asymmetry_witness :
  (RemoveRemoteIstioComponents
     (env_failing (is_Delete istiocrd) (APIStatus StatusReasonNotFound))
     (reconciled env_ok)).1 = Ret None
  ∧ (RemoveRemoteIstioComponents
       (env_failing (is_Delete meshgatewaycrd) (APIStatus StatusReasonNotFound))
       (reconciled env_ok)).1 = Ret (Some gateway_removal_error).
Proof.
  split.
  - exact (proj1 (proj2 (removal_not_found_asymmetry
                           (env_failing (is_Delete istiocrd)
                              (APIStatus StatusReasonNotFound))
                           (reconciled env_ok) istio0 (ClientOf 3) eq_refl eq_refl))
                 eq_refl eq_refl).
  - exact (proj1 (proj2 (proj2 (removal_not_found_asymmetry
                                  (env_failing (is_Delete meshgatewaycrd)
                                     (APIStatus StatusReasonNotFound))
                                  (reconciled env_ok) istio0 (ClientOf 3)
                                  eq_refl eq_refl)))
                 eq_refl).
Defined.

(** Components recorded but no client: the first delete dereferences nil.
    (The manager could not be created; the third [Reconcile] finds both
    flags set and runs the pipeline.) *)
Example removal_with_nil_client_panics :
  (RemoveRemoteIstioComponents env_ok
     (reconcile_all (env_failing is_manager_New (APIStatus StatusReasonTimeout))
        [ (Some rc0, Some istio0); (Some rc0, Some istio0); (Some rc0, Some istio0) ]
        (boot env_ok))).1
  = Panic nil_dereference.
Proof. vm_compute. reflexivity. Qed.

(** C3 fails on the code. With components installed and the client built, a
    delete of the primary resource that is forbidden, or a delete of the
    gateway resource that times out, is not returned: the removal returns
    nil. *)
Lemma removal_swallows_deletion_failures :
  (RemoveRemoteIstioComponents
     (env_failing (is_Delete istiocrd) (APIStatus StatusReasonForbidden))
     (reconciled env_ok)).1 = Ret None
  ∧ (RemoveRemoteIstioComponents
       (env_failing (is_Delete meshgatewaycrd) (APIStatus StatusReasonTimeout))
       (reconciled env_ok)).1 = Ret None
  ∧ istioConfig (self (reconciled env_ok)) = Some istio0
  ∧ ctrlRuntimeClient (self (reconciled env_ok)) = Some (ClientOf 3).
Proof. repeat split; vm_compute; reflexivity. Qed.

(** C8, as amended. On a Cluster with no components recorded as installed,
    [RemoveRemoteIstioComponents] returns nil and does nothing else: no log
    line, no call, no use of the client.  A Cluster fresh from [NewCluster]
    is in that case, and has no client. *)
Theorem removal_without_components_is_noop :
  (∀ env s, istioConfig (self s) = None →
     RemoveRemoteIstioComponents env s = (Ret None, s))
  ∧ (∀ env name_ ctrl_ config_ chans0 trace0,
       istioConfig (self (NewCluster env name_ ctrl_ config_ chans0 trace0).2) = None ∧
       ctrlRuntimeClient (self (NewCluster env name_ ctrl_ config_ chans0 trace0).2)
       = None).
Proof.
  split.
  - intros env s Hi.
    unfold RemoveRemoteIstioComponents, get_self, mbind, M_bind, mret, M_ret.
    cbn. by rewrite Hi.
  - intros env name_ ctrl_ config_ chans0 trace0.
    by destruct (NewCluster_fields env name_ ctrl_ config_ chans0 trace0)
      as (_ & ? & ?).
Qed.

Lemma removal_without_components_is_noop_witness :
  RemoveRemoteIstioComponents env_ok (boot env_ok) = (Ret None, boot env_ok).
Proof.
  exact (proj1 removal_without_components_is_noop env_ok (boot env_ok) eq_refl).
Defined.

(** C8, as stated, fails. Before any [Reconcile] no client is built, and the
    removal returns nil: it succeeds. *)
Lemma removal_before_reconcile_succeeds :
  ctrlRuntimeClient (self (boot env_ok)) = None
  ∧ (RemoveRemoteIstioComponents env_ok (boot env_ok)).1 = Ret None.
Proof. split; reflexivity. Qed.

(** ** Shutdown (C9) *)

(** C9, as amended. On a Cluster whose stop channel is open, [Shutdown]
    returns, having logged and closed the channel and waited for nothing,
    and the stop signal is signalled.  A second [Shutdown] panics on the
    closed channel; the stop signal stays signalled. *)
Theorem Shutdown_closes_once s :
  stop (self s) = stopper (self s) →
  chans s !! stopper (self s) = Some false →
  (Shutdown s).1 = Ret ()
  ∧ emitted s (Shutdown s).2 =
      [ Logged "shutdown remote cluster manager"; Closed (stopper (self s)) ]
  ∧ chans (Shutdown s).2 !! stop (self (Shutdown s).2) = Some true
  ∧ (Shutdown (Shutdown s).2).1 = Panic "close of closed channel"
  ∧ chans (Shutdown (Shutdown s).2).2 !! stop (self (Shutdown (Shutdown s).2).2)
    = Some true.
Proof.
  intros Halias Hopen.
  assert (<[stopper (self s) := true]> (chans s) !! stopper (self s) = Some true)
    as Hclosed.
  { apply list_lookup_insert_eq. by eapply lookup_lt_Some. }
  unfold Shutdown, close, log_Info, emit, get_self, mbind, M_bind, mret, M_ret.
  cbn. rewrite Hopen. cbn. rewrite Hclosed. cbn. rewrite Halias.
  split; [done|]. split; [by read_emitted|]. by rewrite Hclosed.
Qed.

Lemma Shutdown_closes_once_witness :
  (Shutdown (boot env_ok)).1 = Ret ()
  ∧ emitted (boot env_ok) (Shutdown (boot env_ok)).2 =
      [ Logged "shutdown remote cluster manager"; Closed 0 ]
  ∧ chans (Shutdown (boot env_ok)).2 !! 0 = Some true
  ∧ (Shutdown (Shutdown (boot env_ok)).2).1 = Panic "close of closed channel"
  ∧ chans (Shutdown (Shutdown (boot env_ok)).2).2 !! 0 = Some true.
Proof. exact (Shutdown_closes_once (boot env_ok) eq_refl eq_refl). Defined.

(** C9, as stated, fails. The second [Shutdown] of a fresh Cluster panics. *)
Lemma second_Shutdown_panics :
  (Shutdown (boot env_ok)).1 = Ret ()
  ∧ (Shutdown (Shutdown (boot env_ok)).2).1 = Panic "close of closed channel".
Proof. split; reflexivity. Qed.

(** * More of the file *)

(** ** Construction *)

(** As [exec], deciding every branch that can be decided before naming the
    next reply. *)
Ltac run_on := repeat (first [branch | name_reply]; cbn -[range_funcs]).
Ltac exec_all := unfold_methods; cbn -[range_funcs]; run_on.

(** Puts the values decided for the flags back where a later reduction
    brought the flags up again. *)
Ltac use_flags :=
  repeat match goal with
         | H : sync.done_ _ = _ |- _ => try rewrite !H; clear H
         end;
  cbn.

Ltac unfold_new :=
  unfold NewCluster, getRestConfig, client_config_reply, load_reply, call,
    modify_self, get_self, error_of, emperror.Wrap, mbind, M_bind, mret, M_ret.

(** X1. [NewCluster] returns a Cluster and a nil error, or no Cluster and an
    error.  The error is wrapped "could not get k8s rest config" around the
    stage that failed: loading the kubeconfig, after which the client
    configuration is not asked for, or deriving the client configuration. *)
Theorem NewCluster_cluster_or_error env name_ ctrl_ config_ chans0 trace0 :
  let out := NewCluster env name_ ctrl_ config_ chans0 trace0 in
  let l := load_reply env config_ trace0 in
  let cc := client_config_reply env config_ trace0 in
  match r_err l with
  | Some x =>
      out.1 = Ret (None, Some (Wrapped "could not get k8s rest config"
                                 (Wrapped "could not load kubeconfig" (External x))))
      ∧ trace out.2 = Called (clientcmd_Load config_) l :: trace0
  | None =>
      trace out.2 = Called (clientcmd_ClientConfig (r_handle l)) cc
                      :: Called (clientcmd_Load config_) l :: trace0
      ∧ match r_err cc with
        | Some x =>
            out.1 = Ret (None, Some (Wrapped "could not get k8s rest config"
                                       (Wrapped "could not create k8s rest config"
                                          (External x))))
        | None =>
            out.1 = Ret (Some (self out.2), None)
            ∧ restConfig (self out.2) = Some (r_handle cc)
        end
  end.
Proof.
  cbn zeta. unfold_new. cbn.
  run_on; by repeat split.
Qed.

(** X2. The Cluster [NewCluster] returns carries the name, the kubeconfig and
    the controller it was given, has both flags unset, no manager, no client
    and no recorded configuration, and its two channel ends are one new, open
    channel: the position was free before and every older channel is as it
    was. *)
Theorem NewCluster_fresh env name_ ctrl_ config_ chans0 trace0 c err :
  (NewCluster env name_ ctrl_ config_ chans0 trace0).1 = Ret (Some c, err) →
  let s := (NewCluster env name_ ctrl_ config_ chans0 trace0).2 in
  err = None ∧ c = self s
  ∧ (GetName s).1 = Ret name_ ∧ config c = config_ ∧ ctrl c = ctrl_
  ∧ flag_client s = false ∧ flag_watch s = false
  ∧ bundle c = (None, None, None)
  ∧ remoteConfig c = None ∧ istioConfig c = None
  ∧ stop c = stopper c
  ∧ chans0 !! stop c = None
  ∧ chans s !! stop c = Some false
  ∧ (∀ ch, ch < length chans0 → chans s !! ch = chans0 !! ch).
Proof.
  cbn zeta. unfold GetName, flag_client, flag_watch, bundle. unfold_new. cbn.
  run_on; intros; simplify_eq; cbn.
  repeat split; try done.
  - by apply lookup_ge_None_2.
  - by apply list_lookup_middle.
  - intros ch Hch. by apply lookup_app_l.
Qed.

Lemma NewCluster_fresh_witness :
  flag_client (boot env_ok) = false ∧ chans (boot env_ok) !! 0 = Some false.
Proof.
  pose proof (NewCluster_fresh env_ok "remote-a" (Some 9) [] [] []
                (self (boot env_ok)) None eq_refl)
    as (_ & _ & _ & _ & _ & Hflag & _ & _ & _ & _ & _ & _ & Hopen & _).
  exact (conj Hflag Hopen).
Defined.

(** ** What [Reconcile] keeps *)

Lemma same_but_istio_frame c c' :
  set_istioConfig None c = set_istioConfig None c' →
  identity c = identity c' ∧ bundle c = bundle c' ∧
  (bundle_consistent c ↔ bundle_consistent c').
Proof.
  intros H.
  change (identity c) with (identity (set_istioConfig None c)).
  change (bundle c) with (bundle (set_istioConfig None c)).
  change (bundle_consistent c) with (bundle_consistent (set_istioConfig None c)).
  by rewrite H.
Qed.

Lemma init_identity env remote istio s :
  identity (self (Reconcile_init env remote istio s).2) = identity (self s).
Proof. exec; reflexivity. Qed.

Lemma init_bundle_frozen env remote istio s :
  flag_client s = true →
  bundle (self (Reconcile_init env remote istio s).2) = bundle (self s).
Proof. unfold flag_client. exec; intros; try discriminate; reflexivity. Qed.

Lemma init_consistent env remote istio s :
  bundle_consistent (self s) →
  bundle_consistent (self (Reconcile_init env remote istio s).2).
Proof.
  unfold bundle_consistent. exec; intros (H1 & H2 & H3);
    repeat split; cbn; intros; simplify_eq; eauto;
    try (by match goal with H : is_Some None |- _ => destruct H end);
    try (match goal with
         | Hc : ctrlRuntimeClient _ = Some _ |- _ =>
             specialize (H2 _ Hc); congruence
         end).
Qed.

Lemma init_budget env remote istio s :
  let i := Reconcile_init env remote istio s in
  count ev_manager_New (emitted s i.2) + budget (flag_client i.2)
    ≤ budget (flag_client s)
  ∧ count ev_Go_Start (emitted s i.2) + budget (flag_client i.2)
    ≤ budget (flag_client s)
  ∧ count ev_GetInformerForKind (emitted s i.2) + budget (flag_watch i.2)
    ≤ budget (flag_watch s)
  ∧ count ev_Watch (emitted s i.2) + budget (flag_watch i.2)
    ≤ budget (flag_watch s).
Proof.
  cbn zeta. unfold flag_client, flag_watch.
  exec; read_emitted; use_flags; repeat split; lia.
Qed.

Lemma init_starts_with_pre env remote istio s :
  ∃ rest,
    emitted s (Reconcile_init env remote istio s).2 =
      Logged "reconciling remote istio"
      :: Called (cluster_reconcileCRDs remote istio) (pre_reply env remote istio s)
      :: rest
    ∧ ∀ x, r_err (pre_reply env remote istio s) = Some x →
        rest = [] ∧
        (Reconcile_init env remote istio s).1 =
          Ret (Some (Wrapped "could not reconcile" (External x))) ∧
        self (Reconcile_init env remote istio s).2 = self s.
Proof.
  exec; read_emitted; eexists; (split; [reflexivity|]);
    intros; by simplify_eq.
Qed.

Lemma init_manager_started env remote istio s :
  Forall (manager_event_ok (self s) (self (Reconcile_init env remote istio s).2))
    (emitted s (Reconcile_init env remote istio s).2).
Proof. exec; read_emitted; repeat constructor. Qed.

Ltac find_event :=
  repeat first [apply list_elem_of_here | apply list_elem_of_further].

Lemma init_watch_wired env remote istio s :
  Forall (watch_wired (self s) (self (Reconcile_init env remote istio s).2)
            (emitted s (Reconcile_init env remote istio s).2))
    (emitted s (Reconcile_init env remote istio s).2).
Proof.
  exec; read_emitted; repeat (apply Forall_cons; split); try apply Forall_nil;
    try exact I;
    (split; [done|]); do 2 eexists;
    (split; [first [eassumption | reflexivity]|]);
    (split; [find_event|]); by split.
Qed.

Lemma init_first_success env remote istio s :
  let i := Reconcile_init env remote istio s in
  (flag_client s = false → i.1 = Ret None →
   ∃ m d, bundle (self i.2) = (Some m, Some (ClientOf m), Some d) ∧
          Go_Start m (stop (self s)) ∈ emitted s i.2)
  ∧ (flag_watch s = false → i.1 = Ret None →
     ∃ ctl inf rep,
       Called (controller_Watch ctl inf namespaceMapper namespaceFilter) rep
         ∈ emitted s i.2 ∧ r_err rep = None).
Proof.
  cbn zeta. unfold flag_client, flag_watch, bundle.
  exec; read_emitted; split; intros; simplify_eq;
    repeat eexists; first [eassumption | find_event].
Qed.



(** ** From the initial statements to [Reconcile] and to series of calls *)

Lemma Reconcile_extends env remote istio s :
  ∃ evs, trace (Reconcile env remote istio s).2 = evs ++ trace s.
Proof.
  rewrite Reconcile_split. unfold mbind, M_bind.
  destruct (init_extends env remote istio s) as [evs1 Hevs1].
  destruct (Reconcile_init env remote istio s) as [[[e|]|m] s1];
    cbn [fst snd mret M_ret] in *; eauto.
  destruct (range_funcs_run env remote istio ReconcilerFuncs s1)
    as (reps & _ & Htr & _).
  eexists. by rewrite Htr, Hevs1, app_assoc.
Qed.

Lemma emitted_split s s1 s2 evs1 evs2 :
  trace s1 = evs1 ++ trace s →
  trace s2 = evs2 ++ trace s1 →
  emitted s s2 = emitted s s1 ++ emitted s1 s2.
Proof.
  intros H1 H2.
  by rewrite (emitted_trans s s1 s2 evs1 evs2 H1 H2), (emitted_app s1 s2 evs2 H2).
Qed.

Lemma reconcile_all_extends env calls :
  ∀ s, ∃ evs, trace (reconcile_all env calls s) = evs ++ trace s.
Proof.
  induction calls as [|[remote istio] calls IH]; intros s; [by exists []|].
  cbn [reconcile_all].
  destruct (Reconcile_extends env remote istio s) as [evs1 H1].
  destruct (IH (Reconcile env remote istio s).2) as [evs2 H2].
  eexists. by rewrite H2, H1, app_assoc.
Qed.

Lemma reconcile_all_emitted env remote istio calls s :
  emitted s (reconcile_all env ((remote, istio) :: calls) s) =
  emitted s (Reconcile env remote istio s).2 ++
  emitted (Reconcile env remote istio s).2
    (reconcile_all env calls (Reconcile env remote istio s).2).
Proof.
  cbn [reconcile_all].
  destruct (Reconcile_extends env remote istio s) as [evs1 H1].
  destruct (reconcile_all_extends env calls (Reconcile env remote istio s).2)
    as [evs2 H2].
  by eapply emitted_split.
Qed.

Lemma count_app P evs1 evs2 : count P (evs1 ++ evs2) = count P evs1 + count P evs2.
Proof. induction evs1 as [|e evs1 IH]; cbn; [done|]. rewrite IH. lia. Qed.

Lemma count_step_events P remote istio reps :
  (∀ f rep, P (Called (cluster_step f remote istio) rep) = false) →
  count P (step_event remote istio <$> reps) = 0.
Proof.
  intros HP. induction reps as [|[f rep] reps IH]; cbn; [done|].
  unfold step_event at 1. cbn. by rewrite HP, IH.
Qed.

Lemma Reconcile_frame env remote istio s :
  identity (self (Reconcile env remote istio s).2) = identity (self s)
  ∧ chans (Reconcile env remote istio s).2 = chans s.
Proof.
  destruct (Reconcile_shape env remote istio s)
    as [(_ & reps & _ & _ & Hch & Hself)|[_ ->]].
  - apply same_but_istio_frame in Hself as (-> & _).
    by rewrite Hch, init_identity, init_chans.
  - by rewrite init_identity, init_chans.
Qed.

Lemma Reconcile_budget env remote istio s :
  let out := Reconcile env remote istio s in
  count ev_manager_New (emitted s out.2) + budget (flag_client out.2)
    ≤ budget (flag_client s)
  ∧ count ev_Go_Start (emitted s out.2) + budget (flag_client out.2)
    ≤ budget (flag_client s)
  ∧ count ev_GetInformerForKind (emitted s out.2) + budget (flag_watch out.2)
    ≤ budget (flag_watch s)
  ∧ count ev_Watch (emitted s out.2) + budget (flag_watch out.2)
    ≤ budget (flag_watch s).
Proof.
  cbn zeta. pose proof (init_budget env remote istio s) as Hinit.
  destruct (Reconcile_shape env remote istio s)
    as [(_ & reps & _ & Hem & _ & Hself)|[_ ->]]; [|exact Hinit].
  apply same_but_istio_fields in Hself as (_ & Hc & Hw).
  unfold flag_client, flag_watch in *. rewrite Hem, Hc, Hw, !count_app.
  rewrite !count_step_events by done. cbn zeta in Hinit. lia.
Qed.

Lemma Reconcile_bundle_frozen env remote istio s :
  flag_client s = true →
  bundle (self (Reconcile env remote istio s).2) = bundle (self s)
  ∧ flag_client (Reconcile env remote istio s).2 = true.
Proof.
  intros Hflag. split.
  - destruct (Reconcile_shape env remote istio s)
      as [(_ & reps & _ & _ & _ & Hself)|[_ ->]].
    + apply same_but_istio_frame in Hself as (_ & -> & _).
      by apply init_bundle_frozen.
    + by apply init_bundle_frozen.
  - pose proof (Reconcile_budget env remote istio s) as (H & _).
    rewrite Hflag in H.
    destruct (flag_client (Reconcile env remote istio s).2); [done|].
    cbn in H. lia.
Qed.

Lemma Reconcile_consistent env remote istio s :
  bundle_consistent (self s) →
  bundle_consistent (self (Reconcile env remote istio s).2).
Proof.
  intros H. apply (init_consistent env remote istio) in H.
  destruct (Reconcile_shape env remote istio s)
    as [(_ & reps & _ & _ & _ & Hself)|[_ ->]]; [|done].
  by apply same_but_istio_frame in Hself as (_ & _ & ->).
Qed.

(** ** Series of [Reconcile] calls *)

(** X3. No series of [Reconcile] calls changes what the constructor fixed:
    the name [GetName] returns, the kubeconfig, the rest configuration, the
    controller and the two ends of the stop channel; and none touches the
    channel store. *)
Theorem Reconcile_keeps_identity env calls :
  ∀ s, identity (self (reconcile_all env calls s)) = identity (self s)
       ∧ (GetName (reconcile_all env calls s)).1 = (GetName s).1
       ∧ chans (reconcile_all env calls s) = chans s.
Proof.
  induction calls as [|[remote istio] calls IH]; intros s; [done|].
  cbn [reconcile_all].
  destruct (IH (Reconcile env remote istio s).2) as (Hid & Hname & Hch).
  destruct (Reconcile_frame env remote istio s) as (Hid1 & Hch1).
  rewrite Hid, Hch, Hname, Hid1, Hch1. repeat split.
  unfold GetName, get_self, mbind, M_bind, mret, M_ret. cbn.
  apply (f_equal (λ x, Ret x.1.1.1.1.1)) in Hid1. exact Hid1.
Qed.

(** X4. Over any series of [Reconcile] calls the manager is created at most
    once and started at most once, the namespace informer is asked for at
    most once and the watch registered at most once; on a Cluster whose flag
    is already set, never. *)
Theorem initialisation_at_most_once env calls :
  ∀ s,
    count ev_manager_New (emitted s (reconcile_all env calls s))
      ≤ budget (flag_client s)
    ∧ count ev_Go_Start (emitted s (reconcile_all env calls s))
      ≤ budget (flag_client s)
    ∧ count ev_GetInformerForKind (emitted s (reconcile_all env calls s))
      ≤ budget (flag_watch s)
    ∧ count ev_Watch (emitted s (reconcile_all env calls s))
      ≤ budget (flag_watch s).
Proof.
  induction calls as [|[remote istio] calls IH]; intros s.
  { cbn [reconcile_all]. rewrite (emitted_app s s [] eq_refl). cbn.
    repeat split; lia. }
  rewrite reconcile_all_emitted, !count_app.
  pose proof (Reconcile_budget env remote istio s) as H1. cbn zeta in H1.
  specialize (IH (Reconcile env remote istio s).2). lia.
Qed.

(** X5. Once the client flag is set, no series of [Reconcile] calls changes
    the manager, the structured client or the dynamic client: what the one
    attempt left, nil included, stays. *)
Theorem bundle_frozen_by_flag env calls :
  ∀ s, flag_client s = true →
       bundle (self (reconcile_all env calls s)) = bundle (self s)
       ∧ flag_client (reconcile_all env calls s) = true.
Proof.
  induction calls as [|[remote istio] calls IH]; intros s Hflag; [done|].
  cbn [reconcile_all].
  destruct (Reconcile_bundle_frozen env remote istio s Hflag) as (Hb & Hf).
  destruct (IH _ Hf) as (-> & ->). by rewrite Hb.
Qed.

Lemma bundle_frozen_by_flag_witness :
  bundle (self (reconcile_all
                  (env_failing is_manager_New (APIStatus StatusReasonTimeout))
                  [ (Some rc0, Some istio0); (Some rc0, Some istio0) ]
                  (reconciled (env_failing is_manager_New
                                 (APIStatus StatusReasonTimeout)))))
  = bundle (self (reconciled (env_failing is_manager_New
                                (APIStatus StatusReasonTimeout))))
  ∧ flag_client (reconcile_all
                   (env_failing is_manager_New (APIStatus StatusReasonTimeout))
                   [ (Some rc0, Some istio0); (Some rc0, Some istio0) ]
                   (reconciled (env_failing is_manager_New
                                  (APIStatus StatusReasonTimeout))))
    = true.
Proof. apply bundle_frozen_by_flag. vm_compute. reflexivity. Defined.

(** X6. The bundle hangs together on a Cluster fresh from [NewCluster] and
    after any series of [Reconcile] calls on it: the structured client, when
    there is one, is the client of the Cluster's manager, a dynamic client is
    never there without the structured client, and a manager is never there
    with the client flag unset. *)
Theorem bundle_stays_consistent :
  (∀ env name_ ctrl_ config_ chans0 trace0,
     bundle_consistent (self (NewCluster env name_ ctrl_ config_ chans0 trace0).2))
  ∧ (∀ env calls s,
       bundle_consistent (self s) →
       bundle_consistent (self (reconcile_all env calls s))).
Proof.
  split.
  - intros env name_ ctrl_ config_ chans0 trace0.
    destruct (NewCluster_fields env name_ ctrl_ config_ chans0 trace0) as (_ & _ & Hc).
    unfold bundle_consistent. unfold_new. cbn. run_on;
      repeat split; cbn; intros; simplify_eq;
      by match goal with H : is_Some None |- _ => destruct H end.
  - intros env calls. induction calls as [|[remote istio] calls IH]; intros s H;
      [done|].
    cbn [reconcile_all]. by apply IH, Reconcile_consistent.
Qed.

Lemma bundle_stays_consistent_witness :
  bundle_consistent
    (self (reconcile_all env_ok [ (Some rc0, Some istio0) ] (boot env_ok))).
Proof.
  refine (proj2 bundle_stays_consistent env_ok [ (Some rc0, Some istio0) ]
            (boot env_ok) _).
  exact (proj1 bundle_stays_consistent env_ok "remote-a" (Some 9) [] [] []).
Defined.

(** ** One [Reconcile] *)

(** X7. [Reconcile] begins with its log line and the pre-reconciliation step,
    before any other call.  When that step fails nothing else happens: its
    error is returned wrapped "could not reconcile", the Cluster is as it
    was (no configuration recorded, no flag set) and no channel is touched. *)
Theorem pre_reconciliation_first env remote istio s :
  ∃ rest,
    emitted s (Reconcile env remote istio s).2 =
      Logged "reconciling remote istio"
      :: Called (cluster_reconcileCRDs remote istio) (pre_reply env remote istio s)
      :: rest
    ∧ ∀ x, r_err (pre_reply env remote istio s) = Some x →
        rest = [] ∧
        (Reconcile env remote istio s).1 =
          Ret (Some (Wrapped "could not reconcile" (External x))) ∧
        self (Reconcile env remote istio s).2 = self s ∧
        chans (Reconcile env remote istio s).2 = chans s.
Proof.
  destruct (init_starts_with_pre env remote istio s) as (rest & Hem & Hfail).
  destruct (Reconcile_shape env remote istio s)
    as [(Hinit & reps & _ & Hem' & _)|[_ Heq]].
  - exists (rest ++ (step_event remote istio <$> reps)).
    split; [by rewrite Hem', Hem|].
    intros x Hx. destruct (Hfail x Hx) as (_ & Hr & _). congruence.
  - exists rest. rewrite Heq. split; [done|].
    intros x Hx. destruct (Hfail x Hx) as (-> & Hr & Hs).
    by rewrite init_chans.
Qed.

Lemma pre_reconciliation_first_witness :
  (Reconcile (env_failing is_reconcileCRDs (APIStatus StatusReasonForbidden))
     (Some rc0) (Some istio0) (boot env_ok)).1
  = Ret (Some (Wrapped "could not reconcile"
                 (External (APIStatus StatusReasonForbidden))))
  ∧ self (Reconcile (env_failing is_reconcileCRDs (APIStatus StatusReasonForbidden))
            (Some rc0) (Some istio0) (boot env_ok)).2
    = self (boot env_ok).
Proof.
  destruct (pre_reconciliation_first
              (env_failing is_reconcileCRDs (APIStatus StatusReasonForbidden))
              (Some rc0) (Some istio0) (boot env_ok)) as (rest & _ & H).
  destruct (H (APIStatus StatusReasonForbidden) eq_refl) as (_ & Hr & Hs & _).
  exact (conj Hr Hs).
Defined.

(** X8. Whenever [Reconcile] starts the background manager and waits for its
    cache, it does so on the Cluster's own stop channel, and the manager
    started is the one the Cluster holds afterwards. *)
Theorem manager_started_on_stop_channel env remote istio s :
  Forall (manager_event_ok (self s) (self (Reconcile env remote istio s).2))
    (emitted s (Reconcile env remote istio s).2).
Proof.
  pose proof (init_manager_started env remote istio s) as Hinit.
  destruct (Reconcile_shape env remote istio s)
    as [(_ & reps & _ & Hem & _ & Hself)|[_ ->]]; [|done].
  apply same_but_istio_frame in Hself as (_ & Hb & _).
  rewrite Hem. apply Forall_app. split.
  - eapply Forall_impl; [exact Hinit|]. intros e He.
    unfold manager_event_ok in *. apply (f_equal (λ x, x.1.1)) in Hb. cbn in Hb.
    by rewrite Hb.
  - apply Forall_fmap, Forall_true. by intros [f r].
Qed.

(** X9. Whenever [Reconcile] registers the watch, it does so on the
    controller the Cluster was given, with the informer it has just obtained
    for kind "Namespace" from the Cluster's manager. *)
Theorem watch_on_namespace_informer env remote istio s :
  Forall (watch_wired (self s) (self (Reconcile env remote istio s).2)
            (emitted s (Reconcile env remote istio s).2))
    (emitted s (Reconcile env remote istio s).2).
Proof.
  pose proof (init_watch_wired env remote istio s) as Hinit.
  destruct (Reconcile_shape env remote istio s)
    as [(_ & reps & _ & Hem & _ & Hself)|[_ ->]]; [|done].
  apply same_but_istio_frame in Hself as (_ & Hb & _).
  apply (f_equal (λ x, x.1.1)) in Hb. cbn in Hb.
  rewrite Hem. apply Forall_app. split.
  - eapply Forall_impl; [exact Hinit|]. intros e He.
    unfold watch_wired in *.
    destruct e as [|[] ?| |]; try done.
    destruct He as (Hc & m & rep & Hm & Hin & Hok & Hinf).
    split; [done|]. exists m, rep. rewrite Hb.
    repeat split; try done. apply elem_of_app. by left.
  - apply Forall_fmap, Forall_true. by intros [f r].
Qed.

(** X10. A [Reconcile] that returns nil on a Cluster whose client flag was
    unset has built the whole bundle, the manager, its structured client and
    a dynamic client, and has started that manager on the Cluster's stop
    channel; one that returns nil on a Cluster whose watch flag was unset has
    registered the namespace watch without error. *)
Theorem first_success_builds env remote istio s :
  (Reconcile env remote istio s).1 = Ret None →
  (flag_client s = false →
   ∃ m d, bundle (self (Reconcile env remote istio s).2)
          = (Some m, Some (ClientOf m), Some d) ∧
          Go_Start m (stop (self s)) ∈ emitted s (Reconcile env remote istio s).2)
  ∧ (flag_watch s = false →
     ∃ ctl inf rep,
       Called (controller_Watch ctl inf namespaceMapper namespaceFilter) rep
         ∈ emitted s (Reconcile env remote istio s).2 ∧ r_err rep = None).
Proof.
  intros Hok.
  pose proof (init_first_success env remote istio s) as (Hc & Hw).
  destruct (Reconcile_shape env remote istio s)
    as [(Hinit & reps & _ & Hem & _ & Hself)|[Hne Heq]].
  - apply same_but_istio_frame in Hself as (_ & Hb & _).
    rewrite Hem, Hb. split.
    + intros Hflag. destruct (Hc Hflag Hinit) as (m & d & ? & ?).
      exists m, d. split; [done|]. apply elem_of_app. by left.
    + intros Hflag. destruct (Hw Hflag Hinit) as (ctl & inf & rep & ? & ?).
      exists ctl, inf, rep. split; [|done]. apply elem_of_app. by left.
  - rewrite Heq in Hok. by destruct Hne.
Qed.

Lemma first_success_builds_witness :
  ∃ m d, bundle (self (Reconcile env_ok (Some rc0) (Some istio0) (boot env_ok)).2)
         = (Some m, Some (ClientOf m), Some d) ∧
         Go_Start m (stop (self (boot env_ok)))
           ∈ emitted (boot env_ok)
               (Reconcile env_ok (Some rc0) (Some istio0) (boot env_ok)).2.
Proof.
  exact (proj1 (first_success_builds env_ok (Some rc0) (Some istio0) (boot env_ok)
                  eq_refl) eq_refl).
Defined.


(** ** Removal and shutdown *)

(** X12. [RemoveRemoteIstioComponents] never changes the Cluster nor a
    channel, whatever it returns: the record of installed components is not
    cleared.  So with components recorded and the client built, a second
    removal logs and issues both deletes again. *)
Theorem removal_keeps_cluster :
  (∀ env s,
     self (RemoveRemoteIstioComponents env s).2 = self s ∧
     chans (RemoveRemoteIstioComponents env s).2 = chans s)
  ∧ (∀ env env' s i cl,
       istioConfig (self s) = Some i →
       ctrlRuntimeClient (self s) = Some cl →
       emitted (RemoveRemoteIstioComponents env s).2
         (RemoveRemoteIstioComponents env'
            (RemoveRemoteIstioComponents env s).2).2 =
       [ Logged removing_msg;
         Called (client_Delete cl istiocrd)
           (primary_reply env' cl (RemoveRemoteIstioComponents env s).2);
         Called (client_Delete cl meshgatewaycrd)
           (gateway_reply env' cl (RemoveRemoteIstioComponents env s).2) ]).
Proof.
  assert (∀ env s,
            self (RemoveRemoteIstioComponents env s).2 = self s ∧
            chans (RemoveRemoteIstioComponents env s).2 = chans s) as Hkeep.
  { intros env s.
    unfold RemoveRemoteIstioComponents, Delete, log_Info, call, emit, get_self,
      panic, mbind, M_bind, mret, M_ret.
    cbn. destruct (istioConfig (self s)); cbn; [|done].
    destruct (ctrlRuntimeClient (self s)) eqn:Hcl; cbn; [|done].
    rewrite Hcl. cbn. by repeat case_match. }
  split; [exact Hkeep|].
  intros env env' s i cl Hi Hcl.
  destruct (Hkeep env s) as (Hself & _).
  rewrite (Remove_runs env' (RemoveRemoteIstioComponents env s).2 i cl)
    by (by rewrite Hself).
  by read_emitted.
Qed.

Lemma removal_keeps_cluster_witness :
  emitted (RemoveRemoteIstioComponents env_ok (reconciled env_ok)).2
    (RemoveRemoteIstioComponents env_ok
       (RemoveRemoteIstioComponents env_ok (reconciled env_ok)).2).2 =
  [ Logged removing_msg;
    Called (client_Delete (ClientOf 3) istiocrd)
      (primary_reply env_ok (ClientOf 3)
         (RemoveRemoteIstioComponents env_ok (reconciled env_ok)).2);
    Called (client_Delete (ClientOf 3) meshgatewaycrd)
      (gateway_reply env_ok (ClientOf 3)
         (RemoveRemoteIstioComponents env_ok (reconciled env_ok)).2) ].
Proof.
  exact (proj2 removal_keeps_cluster env_ok env_ok (reconciled env_ok) istio0
           (ClientOf 3) eq_refl eq_refl).
Defined.

(** X13. With components recorded but no structured client, the removal
    panics on the nil client: it has logged, and has deleted nothing. *)
Theorem removal_with_nil_client env s i :
  istioConfig (self s) = Some i →
  ctrlRuntimeClient (self s) = None →
  RemoveRemoteIstioComponents env s =
  (Panic nil_dereference,
   {| self := self s; chans := chans s;
      trace := Logged removing_msg :: trace s |}).
Proof.
  intros Hi Hcl.
  unfold RemoveRemoteIstioComponents, Delete, log_Info, call, emit, get_self,
    panic, removing_msg, mbind, M_bind, mret, M_ret.
  cbn. rewrite Hi. cbn. by rewrite Hcl.
Qed.

Lemma removal_with_nil_client_witness :
  (RemoveRemoteIstioComponents env_ok stuck_without_client).1
  = Panic nil_dereference.
Proof.
  assert (istioConfig (self stuck_without_client) = Some istio0) as Hi
    by (vm_compute; reflexivity).
  assert (ctrlRuntimeClient (self stuck_without_client) = None) as Hcl
    by (vm_compute; reflexivity).
  by rewrite (removal_with_nil_client env_ok stuck_without_client istio0 Hi Hcl).
Defined.

(** X14. [Shutdown] never changes the Cluster, and of the channels only its
    own: every other channel, the stop channel of another Cluster among
    them, is as it was.  On a Cluster whose channel was never made it panics
    and changes nothing. *)
Theorem Shutdown_touches_only_its_channel s :
  self (Shutdown s).2 = self s
  ∧ length (chans (Shutdown s).2) = length (chans s)
  ∧ (∀ ch, ch ≠ stopper (self s) → chans (Shutdown s).2 !! ch = chans s !! ch)
  ∧ (chans s !! stopper (self s) = None →
     (Shutdown s).1 = Panic "close of nil channel" ∧
     chans (Shutdown s).2 = chans s).
Proof.
  unfold Shutdown, close, log_Info, emit, get_self, mbind, M_bind, mret, M_ret.
  cbn. destruct (chans s !! stopper (self s)) as [[]|]; cbn;
    repeat split; try done.
  - by rewrite length_insert.
  - intros ch Hch. by apply list_lookup_insert_ne.
Qed.

Lemma Shutdown_touches_only_its_channel_witness :
  chans (Shutdown (boot_second env_ok)).2 !! stop (self (boot env_ok))
  = Some false.
Proof.
  pose proof (Shutdown_touches_only_its_channel (boot_second env_ok))
    as (_ & _ & H & _).
  rewrite (H (stop (self (boot env_ok)))) by (vm_compute; discriminate).
  vm_compute. reflexivity.
Defined.
